(** * PowerSwitcher: the cue/sequence execution engine of [powerswitch.py]

    A shallow embedding of the engine part of the Cue Switchboard
    application: the switch-state codec, the sequence XML store, the two
    HTTP senders (the single-cue sender and the batch runner) and the
    debounced dispatch of the selected cue.

    Conventions of the embedding.
    - Python [int] is [Z]; [str] is [string] (the program's texts are taken
      to be ASCII, one character per byte); [dict] with string keys is a
      [gmap string _]; [None] is the [None] of [option] or [PNone].
    - Exceptions are the constructors of [exn]; a function that can raise
      returns a [result].
    - The file system, the network and [time.sleep] are the fields of a
      [World] threaded through the monad [M]; every HTTP request and every
      sleep is appended to the world's [trace].
    - The Tk event loop is a step function over [App]: the window's fields,
      Tk's table of scheduled [after] callbacks and the started threads. *)

From Stdlib Require Import ZArith List String Ascii Bool Lia.
From Stdlib Require Import DecimalString DecimalPos.
From Stdlib Require Import Sorting.Sorted Sorting.Permutation.
From stdpp Require Import base gmap strings list fin_maps.

Set Warnings "-register-all,-clear-no-such-hyp".
Local Open Scope Z_scope.

(* ===================================================================== *)
(** * Part I: definitions                                                 *)
(* ===================================================================== *)

(** ** Python strings *)

(** The characters [str.strip] and [int] treat as white space. *)
Definition is_space (c : ascii) : bool :=
  let n := nat_of_ascii c in
  ((9 <=? n)%nat && (n <=? 13)%nat) || ((28 <=? n)%nat && (n <=? 32)%nat).

Definition is_slash (c : ascii) : bool := Ascii.eqb c "/".

Fixpoint lstrip (s : string) : string :=
  match s with
  | EmptyString => EmptyString
  | String c r => if is_space c then lstrip r else s
  end.

(** [s.rstrip()] for the characters satisfying [p]. *)
Fixpoint rstrip_with (p : ascii -> bool) (s : string) : string :=
  match s with
  | EmptyString => EmptyString
  | String c r =>
      match rstrip_with p r with
      | EmptyString => if p c then EmptyString else String c EmptyString
      | r' => String c r'
      end
  end.

(** [s.strip()] *)
Definition strip (s : string) : string := rstrip_with is_space (lstrip s).

Definition lower_char (c : ascii) : ascii :=
  let n := nat_of_ascii c in
  if (65 <=? n)%nat && (n <=? 90)%nat then ascii_of_nat (n + 32) else c.

(** [s.lower()] *)
Fixpoint lower (s : string) : string :=
  match s with
  | EmptyString => EmptyString
  | String c r => String (lower_char c) (lower r)
  end.

(** [s.startswith(p)] *)
Definition startswith (p s : string) : bool := String.prefix p s.

(** [s[n:]] *)
Fixpoint str_drop (n : nat) (s : string) : string :=
  match n, s with
  | O, _ => s
  | S n', String _ r => str_drop n' r
  | S _, EmptyString => EmptyString
  end.

(** [s[:n]] *)
Fixpoint str_take (n : nat) (s : string) : string :=
  match n, s with
  | S n', String c r => String c (str_take n' r)
  | _, _ => EmptyString
  end.

(** [s.endswith(p)] *)
Definition endswith (p s : string) : bool :=
  let n := String.length s in
  let m := String.length p in
  (m <=? n)%nat && String.eqb (str_drop (n - m) s) p.

Definition digit_val (c : ascii) : option Z :=
  let n := nat_of_ascii c in
  if (48 <=? n)%nat && (n <=? 57)%nat then Some (Z.of_nat n - 48) else None.

Fixpoint all_digits (s : string) : bool :=
  match s with
  | EmptyString => true
  | String c r => match digit_val c with Some _ => all_digits r | None => false end
  end.

(** [s.isdigit()]: at least one character, all of them digits. *)
Definition isdigit (s : string) : bool :=
  match s with
  | EmptyString => false
  | _ => all_digits s
  end.

(** [all(p(c) for c in s)] *)
Fixpoint str_forall (p : ascii -> bool) (s : string) : bool :=
  match s with
  | EmptyString => true
  | String c r => p c && str_forall p r
  end.

(** The digits of an integer literal, read left to right; an underscore is
    accepted only between two digits. *)
Fixpoint parse_digits (acc : Z) (after_digit : bool) (s : string) : option Z :=
  match s with
  | EmptyString => if after_digit then Some acc else None
  | String c r =>
      match digit_val c with
      | Some d => parse_digits (10 * acc + d) true r
      | None =>
          if Ascii.eqb c "_" && after_digit then parse_digits acc false r
          else None
      end
  end.

(** [int(s)] for a string [s]; [None] stands for [ValueError]. *)
Definition py_int (s : string) : option Z :=
  match strip s with
  | EmptyString => None
  | String c r =>
      if Ascii.eqb c "+" then parse_digits 0 false r
      else if Ascii.eqb c "-" then Z.opp <$> parse_digits 0 false r
      else parse_digits 0 false (String c r)
  end.

(** [str(z)] for an integer [z]. *)
Definition str_of_int (z : Z) : string := NilZero.string_of_int (Z.to_int z).

(** [range(a, b)] *)
Definition py_range (a b : Z) : list Z :=
  map (fun k => a + Z.of_nat k) (seq 0 (Z.to_nat (b - a))).

(** ** Python values held by the cue and step dictionaries *)

Inductive pyval :=
| PNone
| PBool (b : bool)
| PInt (z : Z)
| PStr (s : string).

Inductive exn :=
| RuntimeError (msg : string)
| FileNotFoundError (msg : string)
| ValueError (msg : string)
| TypeError (msg : string)
| AttributeError (msg : string)
| ParseError (msg : string)
| HTTPError (msg : string)
| TransportError (msg : string).

(** [str(e)] *)
Definition exn_str (e : exn) : string :=
  match e with
  | RuntimeError m | FileNotFoundError m | ValueError m | TypeError m
  | AttributeError m | ParseError m | HTTPError m | TransportError m => m
  end.

Inductive result (A : Type) :=
| Ok (a : A)
| Raise (e : exn).
Arguments Ok {A} a.
Arguments Raise {A} e.

(** [bool(v)] *)
Definition py_bool (v : pyval) : bool :=
  match v with
  | PNone => false
  | PBool b => b
  | PInt z => negb (z =? 0)
  | PStr s => negb (String.eqb s "")
  end.

(** [str(v)] *)
Definition py_str (v : pyval) : string :=
  match v with
  | PNone => "None"
  | PBool true => "True"
  | PBool false => "False"
  | PInt z => str_of_int z
  | PStr s => s
  end.

(** [int(v)] *)
Definition py_int_of (v : pyval) : result Z :=
  match v with
  | PNone => Raise (TypeError "int() argument must be a string, a bytes-like object or a real number, not 'NoneType'")
  | PBool b => Ok (if b then 1 else 0)
  | PInt z => Ok z
  | PStr s =>
      match py_int s with
      | Some z => Ok z
      | None => Raise (ValueError ("invalid literal for int() with base 10: '" +:+ s +:+ "'"))
      end
  end.

(** [a or b] on optional strings: [None] and the empty string are false. *)
Definition str_or (a b : option string) : option string :=
  match a with
  | Some s => if String.eqb s "" then b else a
  | None => b
  end.

(** [str(x)] for [x] a string or [None]. *)
Definition str_of_opt (x : option string) : string :=
  match x with
  | Some s => s
  | None => "None"
  end.

(** [x in l] for strings. *)
Definition str_in (x : string) (l : list string) : bool :=
  existsb (String.eqb x) l.

(** ** ElementTree *)

Inductive Element := mkElement {
  tag : string;
  attrib : gmap string string;
  text : option string;
  children : list Element
}.

(** [el.get(k)] *)
Definition el_get (el : Element) (k : string) : option string := attrib el !! k.

(** [el.set(k, v)] *)
Definition el_set (k v : string) (el : Element) : Element :=
  mkElement (tag el) (<[k := v]> (attrib el)) (text el) (children el).

(** [el.findall(t)]: the direct children with tag [t], in document order. *)
Definition findall (t : string) (el : Element) : list Element :=
  List.filter (fun c => String.eqb (tag c) t) (children el).

(** [ET.SubElement(parent, t)] followed by the settings [f] of the new child. *)
Definition SubElement (parent : Element) (child : Element) : Element :=
  mkElement (tag parent) (attrib parent) (text parent) (children parent ++ [child]).

(** ** The world: files, device and clock *)

(** A file is either a well-formed XML document or something [ET.parse]
    refuses. *)
Inductive file :=
| XmlFile (root : Element)
| OtherFile.

Record Response := mkResponse {
  status_code : Z;
  reason : string;
  resp_text : string
}.

(** What the network does with one request. *)
Inductive net_outcome :=
| Responded (r : Response)
| Failed (msg : string).

Inductive http_client := Requests | Httpx.

(** The JSON body: a list of groups of [[channel, state]] pairs. *)
Definition Payload : Type := list (list (Z * bool)).

Inductive io_event :=
| HttpPost (client : http_client) (url : string) (payload : Payload)
| Sleep (ms : Z).

Record World := mkWorld {
  fs : gmap string file;
  net : list net_outcome;
  trace : list io_event
}.

(** ** The monad of blocking code: world passing with exceptions *)

Definition M (A : Type) : Type := World -> result A * World.

Definition ret {A} (a : A) : M A := fun w => (Ok a, w).
Definition raise {A} (e : exn) : M A := fun w => (Raise e, w).
Definition bind {A B} (c : M A) (k : A -> M B) : M B :=
  fun w =>
    match c w with
    | (Ok a, w') => k a w'
    | (Raise e, w') => (Raise e, w')
    end.
Definition liftR {A} (r : result A) : M A := fun w => (r, w).

Declare Scope io_scope.
Delimit Scope io_scope with io.
Notation "'let*' x ':=' c 'in' k" := (bind c (fun x => k))
  (at level 10, x name, c at level 100, k at level 200) : io_scope.
Notation "'run' c 'then' k" := (bind c (fun _ => k))
  (at level 10, c at level 100, k at level 200) : io_scope.
Local Open Scope io_scope.

(** [for x in l: body(x)] *)
Fixpoint for_each {A} (l : list A) (body : A -> M unit) : M unit :=
  match l with
  | [] => ret tt
  | x :: r => run body x then for_each r body
  end.

(** [for x in l: out.append(f(x))] where [f] may raise. *)
Fixpoint map_result {A B} (f : A -> result B) (l : list A) : result (list B) :=
  match l with
  | [] => Ok []
  | x :: r =>
      match f x with
      | Raise e => Raise e
      | Ok y =>
          match map_result f r with
          | Raise e => Raise e
          | Ok ys => Ok (y :: ys)
          end
      end
  end.

(** [ET.parse(path).getroot()] *)
Definition ET_parse (path : string) : M Element :=
  fun w =>
    match fs w !! path with
    | None => (Raise (FileNotFoundError ("[Errno 2] No such file or directory: '" +:+ path +:+ "'")), w)
    | Some OtherFile => (Raise (ParseError "syntax error"), w)
    | Some (XmlFile root) => (Ok root, w)
    end.

(** [ET.ElementTree(root).write(path, ...)] *)
Definition ET_write (path : string) (root : Element) : M unit :=
  fun w => (Ok tt, mkWorld (<[path := XmlFile root]> (fs w)) (net w) (trace w)).

(** [path.exists()] *)
Definition path_exists (path : string) : M bool :=
  fun w => (Ok (bool_decide (is_Some (fs w !! path))), w).

(** One HTTP POST: the request is logged and the next outcome of the
    network is consumed; a network with nothing left to say times out. *)
Definition http_post (client : http_client) (url : string) (payload : Payload) : M Response :=
  fun w =>
    let tr := trace w ++ [HttpPost client url payload] in
    match net w with
    | [] => (Raise (TransportError "timed out"), mkWorld (fs w) [] tr)
    | Failed msg :: rest => (Raise (TransportError msg), mkWorld (fs w) rest tr)
    | Responded r :: rest => (Ok r, mkWorld (fs w) rest tr)
    end.

(** [time.sleep(ms / 1000.0)] *)
Definition sleep_ms (ms : Z) : M unit :=
  fun w => (Ok tt, mkWorld (fs w) (net w) (trace w ++ [Sleep ms])).

(** [resp.raise_for_status()] of the requests library. *)
Definition raise_for_status (url : string) (r : Response) : M unit :=
  let s := status_code r in
  if (400 <=? s) && (s <? 500) then
    raise (HTTPError (str_of_int s +:+ " Client Error: " +:+ reason r +:+ " for url: " +:+ url))
  else if (500 <=? s) && (s <? 600) then
    raise (HTTPError (str_of_int s +:+ " Server Error: " +:+ reason r +:+ " for url: " +:+ url))
  else ret tt.

(** ** Constants *)

Definition DLI_TIMEOUT : Z := 5.
Definition OUTLET_BASE : Z := 0.
Definition SEQUENCES_DIR : string := "sequences".

(** [SEQUENCES_DIR / name] *)
Definition path_join (dir name : string) : string :=
  if startswith "/" name then name else dir +:+ "/" +:+ name.

(** ** Switch-state codec *)

(** [f"Switch{i}"] *)
Definition switch_tag (i : Z) : string := "Switch" +:+ str_of_int i.

Definition Cue : Type := gmap string pyval.

Definition _build_pairs_from_cue (cue : Cue) : list (Z * bool) :=
  map (fun i =>
         let tag := switch_tag i in
         let state := py_bool (default (PBool false) (cue !! tag)) in
         let channel := OUTLET_BASE + (i - 1) in
         (channel, state))
      (py_range 1 9).

(** ** Sequence XML I/O *)

Definition StepDict : Type := gmap string pyval.

Definition bool_spellings : list string := ["1"; "true"; "t"; "yes"; "y"; "on"].

(** The body of the loop of [_read_sequence_xml]. *)
Definition read_step (step_el : Element) : StepDict :=
  let sw_raw := str_or (str_or (el_get step_el "switch") (el_get step_el "Switch"))
                       (el_get step_el "channel") in
  let sw := match sw_raw with
            | Some r => default 0 (py_int r)
            | None => 0
            end in
  let pos_raw := str_or (str_or (el_get step_el "position") (el_get step_el "Position"))
                        (el_get step_el "state") in
  let pos := str_in (lower (strip (str_of_opt pos_raw))) bool_spellings in
  let delay_raw := str_or (str_or (el_get step_el "delay") (el_get step_el "Delay"))
                          (text step_el) in
  let delay := match delay_raw with
               | Some r => default 0 (py_int r)
               | None => 0
               end in
  <["delay" := PInt delay]> (<["position" := PBool pos]> (<["switch" := PInt sw]> ∅)).

Definition _read_sequence_xml (path : string) : M (list StepDict) :=
  let* root := ET_parse path in
  (* if root.tag != "Sequence": pass *)
  ret (map read_step (findall "Step" root)).

(** The body of the loop of [_write_sequence_xml]. *)
Definition write_step (s : StepDict) : result Element :=
  let sw := py_str (default (PInt 0) (s !! "switch")) in
  let pos := if py_bool (default (PBool false) (s !! "position")) then "true" else "false" in
  match py_int_of (default (PInt 0) (s !! "delay")) with
  | Raise e => Raise e
  | Ok d =>
      Ok (el_set "delay" (str_of_int d)
           (el_set "position" pos
             (el_set "switch" sw (mkElement "Step" ∅ None []))))
  end.

Definition _write_sequence_xml (path : string) (steps : list StepDict) : M unit :=
  let* els := liftR (map_result write_step steps) in
  let root := fold_left SubElement els (mkElement "Sequence" ∅ None []) in
  ET_write path root.

(** A well-formed step: integer switch, boolean position, integer delay. *)
Record Step := mkStep {
  step_switch : Z;
  step_position : bool;
  step_delay : Z
}.

Definition step_dict (s : Step) : StepDict :=
  <["delay" := PInt (step_delay s)]>
    (<["position" := PBool (step_position s)]>
      (<["switch" := PInt (step_switch s)]> ∅)).

(** ** The batch runner: [execute_sequence] and [execute_sequence_from_file] *)

(** [f"{base_url.rstrip('/')}/restapi/relay/set_outlet_transient_states/"] *)
Definition api_url (base_url : string) : string :=
  rstrip_with is_slash base_url +:+ "/restapi/relay/set_outlet_transient_states/".

(** The body of the collecting loop: the cue with its integer order. *)
Definition cue_order (cue : Element) : result (Z * Element) :=
  match el_get cue "order" with
  | None => Raise (ValueError "Cue missing required 'order' attribute")
  | Some order_raw =>
      match py_int order_raw with
      | None => Raise (ValueError ("Invalid Cue order='" +:+ order_raw +:+ "' (must be integer)"))
      | Some order => Ok (order, cue)
      end
  end.

(** [l.sort(key=key)]: the sort is stable, so its result is the one of
    inserting each element before the first element of a key not below
    its own. *)
Fixpoint insert_by_key {A} (key : A -> Z) (x : A) (l : list A) : list A :=
  match l with
  | [] => [x]
  | y :: r => if key x <=? key y then x :: y :: r else y :: insert_by_key key x r
  end.

Fixpoint sort_by_key {A} (key : A -> Z) (l : list A) : list A :=
  match l with
  | [] => []
  | x :: r => insert_by_key key x (sort_by_key key r)
  end.

(** The body of the loop over the children of a cue: the pair a child
    contributes, if any. *)
Definition switch_child (child : Element) : result (list (Z * bool)) :=
  let tag := tag child in
  if negb (startswith "Switch" tag) then Ok []
  else
    let num_raw := str_drop (String.length "Switch") tag in
    if negb (isdigit num_raw) then Ok []
    else
      match py_int num_raw with
      | None => Raise (ValueError ("invalid literal for int() with base 10: '" +:+ num_raw +:+ "'"))
      | Some switch_1based =>
          let index_0based := switch_1based - 1 in
          let text_ := lower (strip (default "" (text child))) in
          if negb (str_in text_ ["true"; "false"]) then
            Raise (ValueError ("Invalid value for <" +:+ tag +:+ ">: '"
                               +:+ str_of_opt (text child) +:+ "' (must be true/false)"))
          else Ok [(index_0based, String.eqb text_ "true")]
      end.

Definition cue_steps (cue : Element) : result (list (Z * bool)) :=
  match map_result switch_child (children cue) with
  | Raise e => Raise e
  | Ok groups => Ok (concat groups)
  end.

(** The optional per-cue delay in milliseconds. *)
Definition cue_delay (cue : Element) : result Z :=
  match el_get cue "delay" with
  | None => Ok 0
  | Some delay_raw =>
      let delay_raw := strip delay_raw in
      if String.eqb delay_raw "" then Ok 0
      else
        match py_int delay_raw with
        | Some delay_ms => Ok delay_ms
        | None => Raise (ValueError ("Invalid Cue delay='" +:+ delay_raw
                                     +:+ "' (must be integer milliseconds)"))
        end
  end.

(** The body of the executing loop, the same text in both functions. *)
Definition run_cue (url : string) (cue : Element) : M unit :=
  let* steps := liftR (cue_steps cue) in
  match steps with
  | [] => raise (ValueError "Cue produced no Switch settings (no <SwitchN> elements found)")
  | _ =>
      let payload := [steps] in
      let* resp := http_post Requests url payload in
      run raise_for_status url resp then
      let* delay_ms := liftR (cue_delay cue) in
      if 0 <? delay_ms then sleep_ms delay_ms else ret tt
  end.

(** The credentials and the timeout travel with every request; they do not
    influence what is recorded here and are left out of the arguments. *)
Definition execute_sequence (root : Element) (base_url : string) : M unit :=
  let url := api_url base_url in
  let* cues := liftR (map_result cue_order (findall "Cue" root)) in
  let cues := sort_by_key fst cues in
  for_each cues (fun t => run_cue url (snd t)).

Definition execute_sequence_from_file (xml_path : string) (base_url : string) : M unit :=
  let url := api_url base_url in
  let* root := ET_parse xml_path in
  if negb (String.eqb (tag root) "Cues") then
    raise (ValueError ("Expected root <Cues>, got <" +:+ tag root +:+ ">"))
  else
    let* cues := liftR (map_result cue_order (findall "Cue" root)) in
    let cues := sort_by_key fst cues in
    for_each cues (fun t => run_cue url (snd t)).

(** The element [_menu_run] builds for one row of the grid. *)
Definition switch_element (r : Cue) (i : Z) : Element :=
  mkElement (switch_tag i) ∅
    (Some (if py_bool (default (PBool false) (r !! switch_tag i)) then "true" else "false"))
    [].

Definition cue_element (r : Cue) : Element :=
  let order := match r !! "Order" with
               | None | Some PNone => ""
               | Some v => py_str v
               end in
  let cue_el :=
    el_set "delay" (py_str (default (PStr "") (r !! "Delay")))
      (el_set "sequence" (py_str (default (PStr "") (r !! "Sequence")))
        (el_set "order" order
          (el_set "name" (py_str (default (PStr "") (r !! "Cue")))
            (mkElement "Cue" ∅ None [])))) in
  fold_left SubElement (map (switch_element r) (py_range 1 9)) cue_el.

Definition cues_element (rows : list Cue) : Element :=
  fold_left SubElement (map cue_element rows) (mkElement "Cues" ∅ None []).

(** The blocking part of the worker of [_menu_run]. *)
Definition _menu_run_worker (device_host : string) (rows : list Cue) : M unit :=
  execute_sequence (cues_element rows) ("http://" +:+ device_host).

(** ** The single-cue sender *)

(** [(cue.get("Sequence") or "").strip()] *)
Definition cue_sequence (cue : Cue) : result string :=
  match cue !! "Sequence" with
  | None => Ok ""
  | Some v =>
      if negb (py_bool v) then Ok ""
      else
        match v with
        | PStr s => Ok (strip s)
        | PInt _ => Raise (AttributeError "'int' object has no attribute 'strip'")
        | PBool _ => Raise (AttributeError "'bool' object has no attribute 'strip'")
        | PNone => Ok ""
        end
  end.

Definition _post_cue_sync (has_httpx : bool) (device_host : string) (cue : Cue) : M string :=
  if negb has_httpx then raise (RuntimeError "httpx is not installed. Cannot send request.")
  else
    let payload := [_build_pairs_from_cue cue] in
    let* sequence := liftR (cue_sequence cue) in
    run (if negb (String.eqb sequence "") then
           let seq_filename :=
             if endswith ".xml" (lower sequence) then sequence else sequence +:+ ".xml" in
           let seq_path := path_join SEQUENCES_DIR seq_filename in
           let* found := path_exists seq_path in
           if found then execute_sequence_from_file seq_path ("http://" +:+ device_host)
           else raise (FileNotFoundError ("Sequence file not found: " +:+ seq_path))
         else ret tt) then
    let url := "http://" +:+ device_host +:+ "/restapi/relay/set_outlet_transient_states/" in
    let* resp := http_post Httpx url payload in
    ret (str_of_int (status_code resp) +:+ " — " +:+ str_take 120 (resp_text resp)).

(** The requests recorded in a trace, in the order they were issued. *)
Definition posts_of (tr : list io_event) : list (http_client * Payload) :=
  omap (fun ev => match ev with
                  | HttpPost c _ p => Some (c, p)
                  | Sleep _ => None
                  end) tr.

Definition ok200 (body : string) : net_outcome := Responded (mkResponse 200 "OK" body).

Definition warmup_steps : list Step :=
  [mkStep 2 true 500; mkStep 2 false 0].

Definition empty_world (responses : list net_outcome) : World := mkWorld ∅ responses [].

Definition blackout : Cue :=
  <["Cue" := PStr "Blackout"]> (<["Order" := PInt 1]> (<["Sequence" := PStr ""]>
  (<["Delay" := PInt 0]> (<["Switch1" := PBool true]> ∅)))).

(** ** The dispatch of the selected cue *)

(** What Tk has been asked to call later with [after]. *)
Inductive callback :=
| CbBegin (iid : string)
  (** [lambda: self._begin_send_selected(iid)] *)
| CbFinish (seq : Z) (ok : bool) (msg : string) (cue : Cue)
  (** [lambda: self._finish_send(my_seq, ok, msg, cue)] *).

(** The fields of [CueTableApp] the dispatch reads and writes, Tk's table
    of scheduled callbacks (its identifiers are never reused) and the
    worker threads started so far, each with the generation and the cue
    its closure captured. *)
Record App := mkApp {
  row_data_by_iid : gmap string Cue;
  dli_status : string;
  cursor : string;
  _pending_send_id : option nat;
  _send_seq : Z;
  _is_closing : bool;
  winfo_exists : bool;
  HAS_HTTPX : bool;
  device_host : string;
  after_queue : gmap nat callback;
  next_after_id : nat;
  threads : list (Z * Cue)
}.

Definition set_status (v : string) (s : App) : App :=
  mkApp (row_data_by_iid s) v (cursor s) (_pending_send_id s) (_send_seq s)
        (_is_closing s) (winfo_exists s) (HAS_HTTPX s) (device_host s)
        (after_queue s) (next_after_id s) (threads s).

Definition set_cursor (v : string) (s : App) : App :=
  mkApp (row_data_by_iid s) (dli_status s) v (_pending_send_id s) (_send_seq s)
        (_is_closing s) (winfo_exists s) (HAS_HTTPX s) (device_host s)
        (after_queue s) (next_after_id s) (threads s).

Definition set_pending (v : option nat) (s : App) : App :=
  mkApp (row_data_by_iid s) (dli_status s) (cursor s) v (_send_seq s)
        (_is_closing s) (winfo_exists s) (HAS_HTTPX s) (device_host s)
        (after_queue s) (next_after_id s) (threads s).

Definition set_seq (v : Z) (s : App) : App :=
  mkApp (row_data_by_iid s) (dli_status s) (cursor s) (_pending_send_id s) v
        (_is_closing s) (winfo_exists s) (HAS_HTTPX s) (device_host s)
        (after_queue s) (next_after_id s) (threads s).

Definition set_closing (v : bool) (s : App) : App :=
  mkApp (row_data_by_iid s) (dli_status s) (cursor s) (_pending_send_id s) (_send_seq s)
        v (winfo_exists s) (HAS_HTTPX s) (device_host s)
        (after_queue s) (next_after_id s) (threads s).

Definition set_exists (v : bool) (s : App) : App :=
  mkApp (row_data_by_iid s) (dli_status s) (cursor s) (_pending_send_id s) (_send_seq s)
        (_is_closing s) v (HAS_HTTPX s) (device_host s)
        (after_queue s) (next_after_id s) (threads s).

Definition set_queue (v : gmap nat callback) (s : App) : App :=
  mkApp (row_data_by_iid s) (dli_status s) (cursor s) (_pending_send_id s) (_send_seq s)
        (_is_closing s) (winfo_exists s) (HAS_HTTPX s) (device_host s)
        v (next_after_id s) (threads s).

Definition set_next_id (v : nat) (s : App) : App :=
  mkApp (row_data_by_iid s) (dli_status s) (cursor s) (_pending_send_id s) (_send_seq s)
        (_is_closing s) (winfo_exists s) (HAS_HTTPX s) (device_host s)
        (after_queue s) v (threads s).

Definition set_threads (v : list (Z * Cue)) (s : App) : App :=
  mkApp (row_data_by_iid s) (dli_status s) (cursor s) (_pending_send_id s) (_send_seq s)
        (_is_closing s) (winfo_exists s) (HAS_HTTPX s) (device_host s)
        (after_queue s) (next_after_id s) v.

Definition set_rows (v : gmap string Cue) (s : App) : App :=
  mkApp v (dli_status s) (cursor s) (_pending_send_id s) (_send_seq s)
        (_is_closing s) (winfo_exists s) (HAS_HTTPX s) (device_host s)
        (after_queue s) (next_after_id s) (threads s).

(** [self.after_cancel(id)] *)
Definition after_cancel (id : nat) (s : App) : App :=
  set_queue (delete id (after_queue s)) s.

(** When a scheduled callback runs is the event loop's choice, so the
    delay is not recorded. *)
Definition _safe_after (ms : Z) (func : callback) (s : App) : App * option nat :=
  if _is_closing s || negb (winfo_exists s) then (s, None)
  else
    let id := next_after_id s in
    (set_next_id (S id) (set_queue (<[id := func]> (after_queue s)) s), Some id).

Definition _set_busy (busy : bool) (s : App) : App :=
  set_cursor (if busy then "watch" else "") s.

Definition is_busy (s : App) : bool := String.eqb (cursor s) "watch".

Definition _begin_send_selected (iid : string) (s : App) : App :=
  if _is_closing s || negb (winfo_exists s) then s
  else
    match row_data_by_iid s !! iid with
    | None => s
    | Some cue =>
        if bool_decide (cue = ∅) then s
        else
          let s := _set_busy true s in
          let s := set_pending None s in
          let s := set_seq (_send_seq s + 1) s in
          let my_seq := _send_seq s in
          set_threads (threads s ++ [(my_seq, cue)]) s
    end.

(** The status line [_finish_send] shows. *)
Definition status_line (ok : bool) (msg : string) (cue : Cue) : string :=
  let name := py_str (default (PStr "") (cue !! "Cue")) in
  if ok then "DLI (HTTP): " +:+ msg +:+ " — " +:+ name
  else "DLI (HTTP) error: " +:+ msg +:+ " — " +:+ name.

Definition _finish_send (seq : Z) (ok : bool) (msg : string) (cue : Cue) (s : App) : App :=
  if _is_closing s || negb (winfo_exists s) then s
  else if negb (seq =? _send_seq s) then s
  else _set_busy false (set_status (status_line ok msg cue) s).

Definition _debounced_send_for_iid (iid : string) (delay_ms : Z) (s : App) : App :=
  let s := match _pending_send_id s with
           | Some id => set_pending None (after_cancel id s)
           | None => s
           end in
  let '(s, id) := _safe_after delay_ms (CbBegin iid) s in
  set_pending id s.

Definition on_closing (s : App) : App :=
  let s := set_closing true s in
  let s := match _pending_send_id s with
           | Some id => after_cancel id s
           | None => s
           end in
  (* self._save_config(); self.destroy() *)
  set_exists false s.

(** [_on_tree_select] with [self.tree.selection() = sel]; the bookkeeping
    of the selected index and the domain callback leave the fields above
    alone. *)
Definition _on_tree_select (sel : list string) (s : App) : App :=
  match sel with
  | [] => s
  | iid :: _ => _debounced_send_for_iid iid 120 s
  end.

(** The function [worker] of [_begin_send_selected], run to its end in the
    world [w]. *)
Definition worker (my_seq : Z) (cue : Cue) (w : World) (s : App) : App :=
  let '(ok, msg) := match fst (_post_cue_sync (HAS_HTTPX s) (device_host s) cue w) with
                    | Ok msg => (true, msg)
                    | Raise e => (false, exn_str e)
                    end in
  fst (_safe_after 0 (CbFinish my_seq ok msg cue) s).

Definition run_callback (cb : callback) (s : App) : App :=
  match cb with
  | CbBegin iid => _begin_send_selected iid s
  | CbFinish seq ok msg cue => _finish_send seq ok msg cue s
  end.

(** What can happen to the dispatch of the selected cue. The worker of the
    Run menu belongs to the batch runner and is not among these events. *)
Inductive event :=
| EvSelect (sel : list string)
  (** the tree reports a selection *)
| EvAfter (id : nat)
  (** Tk runs the scheduled callback [id] *)
| EvWorkerDone (k : nat) (w : World)
  (** the [k]-th started thread runs to its end in the world [w] *)
| EvRows (rows : gmap string Cue)
  (** the editor changes the table *)
| EvClose
  (** the window is closed *).

Definition step (s : App) (ev : event) : App :=
  match ev with
  | EvSelect sel => _on_tree_select sel s
  | EvAfter id =>
      match after_queue s !! id with
      | None => s
      | Some cb => run_callback cb (set_queue (delete id (after_queue s)) s)
      end
  | EvWorkerDone k w =>
      match threads s !! k with
      | None => s
      | Some (my_seq, cue) => worker my_seq cue w s
      end
  | EvRows rows => set_rows rows s
  | EvClose => on_closing s
  end.

Definition run_events (s : App) (evs : list event) : App := fold_left step evs s.

(** The application as [__init__] leaves it. *)
Definition init_app (rows : gmap string Cue) (httpx : bool) (host : string) : App :=
  mkApp rows (if httpx then "DLI (HTTP): ready" else "DLI (HTTP): httpx not installed")
        "" None 0 false true httpx host ∅ 0 [].

(** The element [_write_sequence_xml] writes for a well-formed step. *)
Definition step_element (s : Step) : Element :=
  mkElement "Step"
    (<["delay" := str_of_int (step_delay s)]>
      (<["position" := if step_position s then "true" else "false"]>
        (<["switch" := str_of_int (step_switch s)]> ∅)))
    None [].

(** The document [root] under another root tag. *)
Definition retag (t : string) (root : Element) : Element :=
  mkElement t (attrib root) (text root) (children root).

(** The world with the file [f] at [path]. *)
Definition put_file (path : string) (f : file) (w : World) : World :=
  mkWorld (<[path := f]> (fs w)) (net w) (trace w).

(** A cue document holding one step element. *)
Definition cues_doc_with_step : Element :=
  mkElement "Cues" ∅ None [step_element (mkStep 2 true 500)].

(** ** Scenarios *)

Definition warmup_path : string := "sequences/warmup.xml".

(** The cue [Blackout] referring to the sequence [warmup]. *)
Definition warmup_cue : Cue := <["Sequence" := PStr "warmup"]> blackout.

(** The world in which the sequence editor has saved [warmup] and the
    device answers every request with [200 OK]. *)
Definition warmup_world : World :=
  snd (_write_sequence_xml warmup_path (map step_dict warmup_steps)
         (empty_world [ok200 "ok"; ok200 "ok"; ok200 "ok"])).

(** A cue document in the sequences folder under the name [warmup]. *)
Definition warmup_cues_doc : Element :=
  mkElement "Cues" ∅ None
    [mkElement "Cue" {["order" := "1"]} None
       [mkElement "Switch3" ∅ (Some "true") []]].

Definition cues_doc_world : World :=
  put_file warmup_path (XmlFile warmup_cues_doc)
    (empty_world [ok200 "ok"; ok200 "ok"; ok200 "ok"]).

(** The eight pairs of the cue [Blackout]. *)
Definition blackout_pairs : list (Z * bool) :=
  [(0, true); (1, false); (2, false); (3, false);
   (4, false); (5, false); (6, false); (7, false)].

(** A device that answers [500]. *)
Definition failing_device : World :=
  empty_world [Responded (mkResponse 500 "Internal Server Error" "relay fault")].

(** Following the words of the specification (4.4, step 1): one device
    call per step, in step order, each carrying the single pair
    [[step.switch, step.position]]. *)
Definition spec_sequence_calls (steps : list Step) : list Payload :=
  map (fun s => [[(step_switch s, step_position s)]]) steps.

(** ** Vocabulary of the batch runner's properties *)

(** The integer order of a cue element, if it has one. *)
Definition order_of (cue : Element) : option Z :=
  match el_get cue "order" with
  | Some order_raw => py_int order_raw
  | None => None
  end.

(** The body the loop posts for a cue, when the cue gets as far as that. *)
Definition cue_payload (cue : Element) : option Payload :=
  match cue_steps cue with
  | Ok (first :: others) => Some [first :: others]
  | _ => None
  end.

(** An outcome [raise_for_status] lets pass. *)
Definition http_success (o : net_outcome) : bool :=
  match o with
  | Responded r => negb ((400 <=? status_code r) && (status_code r <? 600))
  | Failed _ => false
  end.

Definition order_le (a b : Z * Element) : Prop := fst a <= fst b.

(** What a turn of the executing loop that ends well leaves in the trace:
    the request of the cue and, when the cue's delay is positive, the sleep. *)
Definition turn_events (url : string) (cue : Element) : list io_event :=
  match cue_payload cue, cue_delay cue with
  | Some p, Ok d => HttpPost Requests url p :: (if 0 <? d then [Sleep d] else [])
  | _, _ => []
  end.


(** The world with another file system. *)
Definition set_fs (fs' : gmap string file) (w : World) : World :=
  mkWorld fs' (net w) (trace w).

(** A computation that neither reads nor writes the files. *)
Definition fs_oblivious {A} (c : M A) : Prop :=
  forall w fs', c (set_fs fs' w) = (fst (c w), set_fs fs' (snd (c w))).

(** Three rows of the grid in the order 3, 1, 2; row [n] switches on
    switch [n] alone. *)
Definition row (order : Z) : Cue :=
  <["Cue" := PStr ("cue" +:+ str_of_int order)]>
    (<["Order" := PInt order]> (<[switch_tag order := PBool true]> ∅)).

Definition rows_312 : list Cue := [row 3; row 1; row 2].

Definition pairs_on (n : Z) : list (Z * bool) :=
  map (fun i => (i - 1, i =? n)) (py_range 1 9).

(** ** Vocabulary of the dispatch's properties *)





(** A table of three cues. *)
Definition three_rows : gmap string Cue :=
  <["I001" := row 1]> (<["I002" := row 2]> (<["I003" := row 3]> ∅)).

Definition three_cue_app : App := init_app three_rows true "192.168.0.100".


(** ** States and runs used as instances *)

(** The first cue has been dispatched and its worker still runs. *)
Definition one_send : App :=
  run_events three_cue_app [EvSelect ["I001"]; EvAfter 0%nat].

(** The second cue has been dispatched as well; both workers still run. *)
Definition two_sends : App :=
  run_events one_send [EvSelect ["I002"]; EvAfter 1%nat].

(** The worker of the first send ends and its result is delivered. *)
Definition first_worker_ends (id : nat) : list event :=
  [EvWorkerDone 0 (empty_world [ok200 "ok"]); EvAfter id].

(** The table holding the cue [Blackout] alone. *)
Definition blackout_app : App :=
  init_app {["I001" := blackout]} true "192.168.0.100".

(** [Blackout] is selected, dispatched, answered with [500], and the
    result is delivered. *)
Definition blackout_run : list event :=
  [EvSelect ["I001"]; EvAfter 0%nat; EvWorkerDone 0 failing_device; EvAfter 1%nat].

(** The grid holding the one cue that refers to [warmup]. *)
Definition warmup_root : Element := cues_element [warmup_cue].

(* ===================================================================== *)
(** * Part I, continued: the grid, the dialogs and the cue file           *)
(* ===================================================================== *)

(** ** Vocabulary of the further properties of the dispatch *)

(** The started workers carry the generations 1, 2, ... up to the current
    one, and a result that waits for delivery is the one of a started
    worker. *)
Definition generations_inv (s : App) : Prop :=
  0 <= _send_seq s
  /\ map fst (threads s) = py_range 1 (_send_seq s + 1)
  /\ forall id g ok msg cue,
       after_queue s !! id = Some (CbFinish g ok msg cue) -> (g, cue) ∈ threads s.

(** The status line for the outcome of a send. *)
Definition outcome_line (r : result string) (cue : Cue) : string :=
  match r with
  | Ok msg => status_line true msg cue
  | Raise e => status_line false (exn_str e) cue
  end.

(** A cue is selected, its debounce fires, its worker ends in the world
    [w] and the result is delivered, with nothing else in between. *)
Definition send_to_completion (s : App) (iid : string) (w : World) : list event :=
  [EvSelect [iid]; EvAfter (next_after_id s);
   EvWorkerDone (length (threads s)) w; EvAfter (S (next_after_id s))].

(** ** Vocabulary of the further properties of the single-cue sender *)

(** The file the single-cue sender looks for when a cue names [sequence]. *)
Definition sequence_path (sequence : string) : string :=
  path_join SEQUENCES_DIR
    (if endswith ".xml" (lower sequence) then sequence else sequence +:+ ".xml").

(** The address the single-cue sender posts to. *)
Definition cue_url (host : string) : string :=
  "http://" +:+ host +:+ "/restapi/relay/set_outlet_transient_states/".

(** What the sender returns for the outcome of its one request. *)
Definition outcome_result (o : option net_outcome) : result string :=
  match o with
  | Some (Responded r) =>
      Ok (str_of_int (status_code r) +:+ " — " +:+ str_take 120 (resp_text r))
  | Some (Failed msg) => Raise (TransportError msg)
  | None => Raise (TransportError "timed out")
  end.

(** ** Rows of the grid as the batch runner takes them *)




(** A row the Run menu can execute: an integer order, and a delay that is
    an integer, blank or absent. *)
Definition runnable_row (r : Cue) : Prop :=
  (exists z, r !! "Order" = Some (PInt z))
  /\ (r !! "Delay" = None \/ r !! "Delay" = Some (PStr "")
      \/ exists d, r !! "Delay" = Some (PInt d)).

(** A row whose order is blank. *)
Definition blank_order (r : Cue) : Prop :=
  r !! "Order" = None \/ r !! "Order" = Some PNone \/ r !! "Order" = Some (PStr "").


(** A row whose delay was typed as a word. *)
Definition bad_delay_row : Cue := <["Delay" := PStr "soon"]> (row 1).

(** A cue element with no switch among its children. *)
Definition cue_without_switches : Element :=
  mkElement "Cue" {["order" := "1"]} None [mkElement "Note" ∅ (Some "lights") []].

(** A row without an order. *)
Definition unordered_row : Cue := {["Cue" := PStr "late"]}.

Definition three_ok : World := empty_world [ok200 "ok"; ok200 "ok"; ok200 "ok"].

(** ** Steps as the store reads them back *)



(** ** The sequence editor and the helpers of the grid *)

(** The three values of a row of the steps tree. *)
Definition TreeRow : Type := string * string * string.

(** The values the editor shows for a step. *)
Definition step_values (s : StepDict) : TreeRow :=
  (py_str (default PNone (s !! "switch")),
   if py_bool (default PNone (s !! "position")) then "True" else "False",
   py_str (default PNone (s !! "delay"))).

Definition _load_steps (steps : list StepDict) : list TreeRow := map step_values steps.

Definition _gather_steps (tree : list TreeRow) : list StepDict :=
  map (fun v =>
         let '(v0, v1, v2) := v in
         let sw := default 0 (py_int v0) in
         let pos := str_in (lower (strip v1)) bool_spellings in
         let delay := default 0 (py_int v2) in
         <["delay" := PInt delay]> (<["position" := PBool pos]> (<["switch" := PInt sw]> ∅)))
      tree.

(** [StepEditorDialog._on_ok]: the step of the dialog, or nothing when a
    warning is shown instead. *)
Definition step_dialog_on_ok (var_switch var_delay : string) (var_position : bool)
  : option StepDict :=
  let sw_text := strip var_switch in
  let delay_text := strip var_delay in
  match py_int sw_text with
  | None => None
  | Some sw =>
      match (if String.eqb delay_text "" then Some 0 else py_int delay_text) with
      | None => None
      | Some delay =>
          Some (<["delay" := PInt delay]>
                  (<["position" := PBool var_position]> (<["switch" := PInt sw]> ∅)))
      end
  end.

(** [_on_add_step] with the step [step] of the dialog. *)
Definition _on_add_step (tree : list TreeRow) (step : StepDict) : list TreeRow :=
  tree ++ [step_values step].

(** The well-formed step a tree row is gathered as. *)
Definition row_step (v : TreeRow) : Step :=
  let '(v0, v1, v2) := v in
  mkStep (default 0 (py_int v0)) (str_in (lower (strip v1)) bool_spellings)
         (default 0 (py_int v2)).

(** The integer [_next_order] takes from a row, if any. *)
Definition order_candidate (r : Cue) : option Z :=
  match r !! "Order" with
  | Some (PInt z) => Some z
  | Some (PBool b) => Some (if b then 1 else 0)
  | Some (PStr s) => py_int s
  | Some PNone | None => None
  end.

Definition _next_order (rows : list Cue) : Z :=
  match omap order_candidate rows with
  | [] => 1
  | o :: os => fold_left Z.max os o + 1
  end.

(** The row [_select_row_by_index] selects among the children of the
    tree, if there is any. *)
Definition _select_row_by_index (index : pyval) (children : list string) : option string :=
  match children with
  | [] => None
  | _ =>
      let idx :=
        match index with
        | PNone => 0
        | _ =>
            match py_int_of index with
            | Ok i => if (i <? 0) || (Z.of_nat (length children) <=? i) then 0 else i
            | Raise _ => 0
            end
        end in
      children !! Z.to_nat idx
  end.

(** ** The cue file *)

Definition _parse_bool (text_ : string) : bool :=
  str_in (lower (strip text_)) bool_spellings.

(** [_safe_int(v)] for a string [v]. *)
Definition _safe_int (v : string) : pyval :=
  match py_int v with
  | Some z => PInt z
  | None => PStr v
  end.

(** [el.find(t)]: the first child with tag [t]. *)
Definition el_find (t : string) (el : Element) : option Element := head (findall t el).

(** The body of the loop of [_read_xml]. *)
Definition read_cue (cue_el : Element) : Cue :=
  let name := default "" (el_get cue_el "name") in
  let order := _safe_int (default "" (el_get cue_el "order")) in
  let sequence := default "" (el_get cue_el "sequence") in
  let delay := _safe_int (default "" (el_get cue_el "delay")) in
  let cue : Cue :=
    <["Delay" := delay]> (<["Sequence" := PStr sequence]>
      (<["Order" := order]> (<["Cue" := PStr name]> ∅))) in
  fold_left
    (fun (cue : Cue) i =>
       let tag := switch_tag i in
       <[tag := PBool match el_find tag cue_el with
                      | Some val_el =>
                          match text val_el with
                          | Some t => _parse_bool t
                          | None => false
                          end
                      | None => false
                      end]> cue)
    (py_range 1 9) cue.

(** [l.sort(key=key)] for keys compared by [le]: the sort is stable. *)
Fixpoint insert_by {A} (le : A -> A -> bool) (x : A) (l : list A) : list A :=
  match l with
  | [] => [x]
  | y :: r => if le x y then x :: y :: r else y :: insert_by le x r
  end.

Fixpoint sort_by {A} (le : A -> A -> bool) (l : list A) : list A :=
  match l with
  | [] => []
  | x :: r => insert_by le x (sort_by le r)
  end.

(** The key [_read_xml] sorts by: the order when it is an integer,
    infinity ([None]) otherwise. *)
Definition order_sort_key (r : Cue) : option Z :=
  match r !! "Order" with
  | Some (PInt z) => Some z
  | Some (PBool b) => Some (if b then 1 else 0)
  | _ => None
  end.

Definition key_le (a b : option Z) : bool :=
  match a, b with
  | Some x, Some y => x <=? y
  | Some _, None => true
  | None, Some _ => false
  | None, None => true
  end.

Definition row_le (a b : Cue) : bool := key_le (order_sort_key a) (order_sort_key b).

Definition _read_xml (path : string) : M (list Cue) :=
  bind (ET_parse path) (fun root =>
  if negb (String.eqb (tag root) "Cues") then
    raise (ValueError "Root element must be <Cues>")
  else ret (sort_by row_le (map read_cue (findall "Cue" root)))).

Definition _write_xml (path : string) (rows : list Cue) : M unit :=
  ET_write path (cues_element rows).

(** A row as the grid holds it after the cue dialog or a load: texts for
    name and sequence, an integer or a blank for order and delay, eight
    booleans. *)
Record GridRow := mkGridRow {
  g_name : string;
  g_order : option Z;
  g_sequence : string;
  g_delay : option Z;
  g_switch : Z -> bool
}.

Definition cell (v : option Z) : pyval :=
  match v with
  | Some z => PInt z
  | None => PStr ""
  end.

Definition grid_dict (g : GridRow) : Cue :=
  fold_left (fun (cue : Cue) i => <[switch_tag i := PBool (g_switch g i)]> cue)
    (py_range 1 9)
    (<["Delay" := cell (g_delay g)]> (<["Sequence" := PStr (g_sequence g)]>
      (<["Order" := cell (g_order g)]> (<["Cue" := PStr (g_name g)]> ∅)))).

(** The characters an XML document carries as they are: printable ASCII. *)
Definition printable (c : ascii) : bool :=
  (32 <=? nat_of_ascii c)%nat && (nat_of_ascii c <? 127)%nat.

(** A row whose texts are printable, so that the document written for it
    is one ElementTree parses back to the same texts. *)
Definition plain_row (g : GridRow) : Prop :=
  str_forall printable (g_name g) = true /\ str_forall printable (g_sequence g) = true.

Definition two_grid_rows : list GridRow :=
  [mkGridRow "Intro" (Some 1) "" (Some 250) (fun i => i =? 1);
   mkGridRow "Outro" None "finale" None (fun i => i =? 8)].

(** ** Cells, the cue dialog, Add New and Edit *)

Definition COLUMNS : list string :=
  ["Cue"; "Order"; "Sequence"; "Delay"] ++ map switch_tag (py_range 1 9).

Definition SWITCH_COLUMNS : list string := drop 4 COLUMNS.

(** [s.replace(c, '')] for a one-character [c]. *)
Fixpoint str_remove (c : ascii) (s : string) : string :=
  match s with
  | EmptyString => EmptyString
  | String a r => if Ascii.eqb a c then str_remove c r else String a (str_remove c r)
  end.

(** [_toggle_if_switch_cell], with the row and the column id Tk identifies
    under the pointer ([""] for none); [None]: the handler ends with an
    exception, having changed nothing. *)
Definition _toggle_if_switch_cell (item column_id : string) (s : App) : option App :=
  if String.eqb item "" || String.eqb column_id "" then Some s
  else
    match py_int (str_remove "#" column_id) with
    | None => None
    | Some n =>
        let col_index := n - 1 in
        if col_index <? 0 then Some s
        else
          match COLUMNS !! Z.to_nat col_index with
          | None => None
          | Some col_name =>
              if str_in col_name SWITCH_COLUMNS then
                match row_data_by_iid s !! item with
                | None => Some s
                | Some cue =>
                    let new_val := negb (py_bool (default (PBool false) (cue !! col_name))) in
                    Some (set_rows (<[item := <[col_name := PBool new_val]> cue]>
                                      (row_data_by_iid s)) s)
                end
              else Some s
          end
    end.

(** The id Tk gives the [n]-th column. *)
Definition column_id_of (n : Z) : string := "#" +:+ str_of_int n.

(** The fields of a [CueEditorDialog] when OK is pressed; the constructor
    makes eight switch variables. *)
Record CueEditorDialog := mkCueEditorDialog {
  var_cue : string;
  var_order : string;
  var_sequence : string;
  var_delay : string;
  switch_vars : list bool
}.

(** [enumerate(l, start)] *)
Fixpoint enumerate {A} (start : Z) (l : list A) : list (Z * A) :=
  match l with
  | [] => []
  | x :: r => (start, x) :: enumerate (start + 1) r
  end.

(** An optional integer field of the dialog: blank stays [""], an integer
    is converted, anything else ([None]) brings the warning up. *)
Definition optional_int (text_ : string) : option pyval :=
  if String.eqb text_ "" then Some (PStr "") else PInt <$> py_int text_.

(** [CueEditorDialog._on_ok]: the value left in [self.result], [None] when
    a warning is shown instead. *)
Definition cue_dialog_on_ok (d : CueEditorDialog) : option Cue :=
  let cue := strip (var_cue d) in
  if String.eqb cue "" then None
  else
    match optional_int (strip (var_order d)) with
    | None => None
    | Some order_val =>
        match optional_int (strip (var_delay d)) with
        | None => None
        | Some delay_val =>
            let cue_dict : Cue :=
              <["Delay" := delay_val]> (<["Sequence" := PStr (strip (var_sequence d))]>
                (<["Order" := order_val]> (<["Cue" := PStr cue]> ∅))) in
            Some (fold_left (fun (c : Cue) iv => <[switch_tag (fst iv) := PBool (snd iv)]> c)
                    (enumerate 1 (switch_vars d)) cue_dict)
        end
    end.

Definition blank_or_int (v : pyval) : option Z :=
  match v with
  | PInt z => Some z
  | _ => None
  end.

Definition intro_dialog : CueEditorDialog :=
  mkCueEditorDialog " Intro " "3" "" " 250"
    [true; false; true; false; false; false; false; false].

Definition intro_cue : Cue :=
  grid_dict (mkGridRow "Intro" (Some 3) "" (Some 250) (fun i => (i =? 1) || (i =? 3))).

(** [{k: row.get(k) for k in COLUMNS}], the dict [add_row] and
    [_menu_edit_selected] store for a row: its values under the columns of
    the grid, [None] where it has none. *)
Definition column_values (row_ : Cue) : Cue :=
  list_to_map (map (fun k => (k, default PNone (row_ !! k))) COLUMNS).

(** [_menu_add_new] over the rows of the grid: the row it adds for the
    result of the dialog, none when the dialog was cancelled. *)
Definition _menu_add_new (rows : list Cue) (result_ : option Cue) : option Cue :=
  let next_order := _next_order rows in
  match result_ with
  | None => None
  | Some r =>
      let r1 :=
        match r !! "Order" with
        | None | Some PNone | Some (PStr "") => <["Order" := PInt next_order]> r
        | _ => r
        end in
      Some (column_values r1)
  end.

Definition outro_dialog : CueEditorDialog :=
  mkCueEditorDialog "Outro" " " "finale" ""
    [false; false; false; false; false; false; false; true].

Definition outro_cue : Cue :=
  grid_dict (mkGridRow "Outro" None "finale" None (fun i => i =? 8)).

(** [_menu_edit_selected] with the selected row [iid] and the result of
    the dialog. *)
Definition _menu_edit_selected (iid : string) (result_ : option Cue) (s : App) : App :=
  match result_ with
  | None => s
  | Some r => set_rows (<[iid := column_values r]> (row_data_by_iid s)) s
  end.

(** [_gather_rows] over the children of the tree; [None]: a child without
    a row ([KeyError]). *)
Definition _gather_rows (children : list string) (s : App) : option (list Cue) :=
  mapM (fun iid => row_data_by_iid s !! iid) children.

Definition three_children : list string := ["I001"; "I002"; "I003"].

(* ===================================================================== *)
(** * Part II: properties                                                 *)
(* ===================================================================== *)

(** ** Integers and their decimal text *)

Section Decimal.

Lemma parse_digits_digit (acc d : Z) (b : bool) (c : ascii) (r : string) :
  digit_val c = Some d ->
  parse_digits acc b (String c r) = parse_digits (10 * acc + d) true r.
Proof. intros H. cbn [parse_digits]. now rewrite H. Qed.

(** Evaluates the value of the digit character left in the goal. *)
Ltac digit_compute :=
  repeat match goal with
    | |- context [Z.of_nat (nat_of_ascii ?c) - 48] =>
        let v := eval vm_compute in (Z.of_nat (nat_of_ascii c) - 48) in
        change (Z.of_nat (nat_of_ascii c) - 48) with v
    end.

Lemma parse_digits_uint_acc (u : Decimal.uint) (p : positive) :
  parse_digits (Z.pos p) true (NilEmpty.string_of_uint u)
  = Some (Z.pos (Pos.of_uint_acc u p)).
Proof.
  revert p. induction u; intros p; cbn [NilEmpty.string_of_uint Pos.of_uint_acc];
    [ reflexivity | .. ];
    erewrite parse_digits_digit by reflexivity;
    rewrite <- IHu; f_equal; digit_compute; lia.
Qed.

Lemma parse_digits_uint (u : Decimal.uint) :
  parse_digits 0 true (NilEmpty.string_of_uint u) = Some (Z.of_N (Pos.of_uint u)).
Proof.
  induction u; cbn [NilEmpty.string_of_uint Pos.of_uint];
    [ reflexivity | .. ];
    erewrite parse_digits_digit by reflexivity;
    digit_compute; [ exact IHu | .. ];
    cbn [Z.of_N]; rewrite <- parse_digits_uint_acc; reflexivity.
Qed.

(** A string of digits needs one digit before anything else. *)
Lemma parse_digits_uint_start (u : Decimal.uint) :
  u <> Decimal.Nil ->
  parse_digits 0 false (NilEmpty.string_of_uint u) = Some (Z.of_N (Pos.of_uint u)).
Proof.
  intros Hu. rewrite <- parse_digits_uint.
  destruct u; [ congruence | .. ]; reflexivity.
Qed.

Lemma rstrip_no_space (s : string) :
  str_forall (fun c => negb (is_space c)) s = true -> rstrip_with is_space s = s.
Proof.
  induction s as [| c r IH]; simpl; [ reflexivity | ].
  intros [Hc Hr]%andb_true_iff. rewrite (IH Hr).
  destruct r; [ | reflexivity ].
  apply negb_true_iff in Hc. now rewrite Hc.
Qed.

Lemma strip_no_space (s : string) :
  str_forall (fun c => negb (is_space c)) s = true -> strip s = s.
Proof.
  intros H. unfold strip.
  replace (lstrip s) with s; [ now apply rstrip_no_space | ].
  destruct s as [| c r]; [ reflexivity | ].
  simpl in H. apply andb_true_iff in H as [Hc _].
  apply negb_true_iff in Hc. simpl. now rewrite Hc.
Qed.

Lemma uint_no_space (u : Decimal.uint) :
  str_forall (fun c => negb (is_space c)) (NilEmpty.string_of_uint u) = true.
Proof. induction u; simpl; auto. Qed.

Lemma uint_first_char (u : Decimal.uint) :
  u <> Decimal.Nil ->
  exists c r, NilEmpty.string_of_uint u = String c r
              /\ Ascii.eqb c "+" = false /\ Ascii.eqb c "-" = false.
Proof.
  intros Hu. destruct u; [ congruence | .. ]; simpl; eauto.
Qed.

(** [int(str(z)) == z] *)
Lemma py_int_str_of_int (z : Z) : py_int (str_of_int z) = Some z.
Proof.
  destruct z as [| p | p]; [ reflexivity | | ].
  - unfold str_of_int. cbn [Z.to_int NilZero.string_of_int].
    pose proof (DecimalPos.Unsigned.to_uint_nonnil p) as Hnil.
    assert (Hs : NilZero.string_of_uint (Pos.to_uint p)
                 = NilEmpty.string_of_uint (Pos.to_uint p)).
    { unfold NilZero.string_of_uint. destruct (Pos.to_uint p); congruence. }
    rewrite Hs. unfold py_int. rewrite strip_no_space by apply uint_no_space.
    destruct (uint_first_char _ Hnil) as (c & r & Hcr & Hplus & Hminus).
    rewrite Hcr, Hplus, Hminus, <- Hcr.
    rewrite parse_digits_uint_start by exact Hnil.
    now rewrite DecimalPos.Unsigned.of_to.
  - unfold str_of_int. cbn [Z.to_int NilZero.string_of_int].
    pose proof (DecimalPos.Unsigned.to_uint_nonnil p) as Hnil.
    assert (Hs : NilZero.string_of_uint (Pos.to_uint p)
                 = NilEmpty.string_of_uint (Pos.to_uint p)).
    { unfold NilZero.string_of_uint. destruct (Pos.to_uint p); congruence. }
    rewrite Hs. unfold py_int.
    rewrite strip_no_space by (simpl; apply uint_no_space).
    change (Ascii.eqb "-" "+") with false. change (Ascii.eqb "-" "-") with true.
    cbv iota. rewrite parse_digits_uint_start by exact Hnil.
    now rewrite DecimalPos.Unsigned.of_to.
Qed.

(** The text of an integer is never empty. *)
Lemma str_of_int_nonempty (z : Z) : String.eqb (str_of_int z) "" = false.
Proof.
  destruct z as [| p | p]; [ reflexivity | | reflexivity ].
  unfold str_of_int. cbn [Z.to_int NilZero.string_of_int].
  unfold NilZero.string_of_uint.
  destruct (Pos.to_uint p) eqn:E; try reflexivity.
Qed.

End Decimal.

(** ** The sequence store *)

Section Store.

(** Looks a literal key up in a literal chain of insertions. *)
Ltac map_lookup :=
  repeat first
    [ rewrite lookup_insert_eq
    | rewrite lookup_insert_ne by discriminate
    | rewrite lookup_empty ].

Lemma write_step_dict (s : Step) : write_step (step_dict s) = Ok (step_element s).
Proof.
  unfold write_step, step_dict. map_lookup.
  cbn [default py_int_of py_str py_bool].
  unfold step_element, el_set. cbn [tag attrib text children].
  destruct (step_position s); reflexivity.
Qed.

Lemma read_step_element (s : Step) : read_step (step_element s) = step_dict s.
Proof.
  unfold read_step, step_element, step_dict, el_get.
  cbn [attrib text]. map_lookup.
  do 3 (cbn [str_or]; rewrite ?str_of_int_nonempty).
  rewrite !py_int_str_of_int. cbn [default].
  destruct (step_position s); reflexivity.
Qed.

Lemma map_result_write_steps (steps : list Step) :
  map_result write_step (map step_dict steps) = Ok (map step_element steps).
Proof.
  induction steps as [| s r IH]; [ reflexivity | ].
  cbn [map map_result]. now rewrite write_step_dict, IH.
Qed.

Lemma children_fold_SubElement (els : list Element) (root : Element) :
  children (fold_left SubElement els root) = children root ++ els.
Proof.
  revert root. induction els as [| e r IH]; intros root; cbn [fold_left].
  - now rewrite app_nil_r.
  - rewrite IH. cbn [SubElement children]. now rewrite <- app_assoc.
Qed.

Lemma tag_fold_SubElement (els : list Element) (root : Element) :
  tag (fold_left SubElement els root) = tag root.
Proof.
  revert root. induction els as [| e r IH]; intros root; cbn [fold_left];
    [ reflexivity | now rewrite IH ].
Qed.

Lemma filter_step_elements (steps : list Step) :
  List.filter (fun c => String.eqb (tag c) "Step") (map step_element steps)
  = map step_element steps.
Proof.
  induction steps as [| s r IH]; [ reflexivity | ].
  cbn [map List.filter step_element tag]. cbn. now f_equal.
Qed.

(** C8. Saving a well-formed step list and loading it again under the same
    name gives back the step list: [_write_sequence_xml] succeeds, and
    [_read_sequence_xml] of the file it wrote returns the very steps. *)
Theorem sequence_store_round_trip (w : World) (path : string) (steps : list Step) :
  exists w',
    _write_sequence_xml path (map step_dict steps) w = (Ok tt, w')
    /\ _read_sequence_xml path w' = (Ok (map step_dict steps), w').
Proof.
  eexists. split.
  - unfold _write_sequence_xml, bind, liftR.
    rewrite map_result_write_steps. unfold ET_write. reflexivity.
  - unfold _read_sequence_xml, bind, ET_parse, ret. cbn [fs].
    rewrite lookup_insert_eq. unfold findall.
    rewrite children_fold_SubElement. cbn [children app].
    rewrite filter_step_elements, map_map.
    do 2 f_equal. apply map_ext. intros s. apply read_step_element.
Qed.

(** [_read_sequence_xml] never looks at the tag of the root. *)
Lemma read_sequence_retag (w : World) (path : string) (root : Element) (t : string) :
  fst (_read_sequence_xml path (put_file path (XmlFile (retag t root)) w))
  = Ok (map read_step (findall "Step" root)).
Proof.
  unfold _read_sequence_xml, bind, ET_parse, ret, put_file. cbn [fs].
  now rewrite lookup_insert_eq.
Qed.

(** C9, as the code has it. The load does not examine what kind of document
    it is given: for a file holding a well-formed XML document it returns a
    step list, and the same one whatever tag the root carries. *)
Theorem load_ignores_root_tag (w : World) (path : string) (root : Element) (t : string) :
  fs w !! path = Some (XmlFile root) ->
  (exists steps, fst (_read_sequence_xml path w) = Ok steps)
  /\ fst (_read_sequence_xml path (put_file path (XmlFile (retag t root)) w))
     = fst (_read_sequence_xml path w).
Proof.
  intros Hfile.
  assert (Hload : fst (_read_sequence_xml path w) = Ok (map read_step (findall "Step" root))).
  { unfold _read_sequence_xml, bind, ET_parse, ret. now rewrite Hfile. }
  split; [ eauto | ].
  now rewrite Hload, read_sequence_retag.
Qed.

Lemma load_ignores_root_tag_witness :
  fst (_read_sequence_xml "sequences/cues.xml"
         (put_file "sequences/cues.xml" (XmlFile (retag "Sequence" cues_doc_with_step))
            (put_file "sequences/cues.xml" (XmlFile cues_doc_with_step) (empty_world []))))
  = fst (_read_sequence_xml "sequences/cues.xml"
           (put_file "sequences/cues.xml" (XmlFile cues_doc_with_step) (empty_world []))).
Proof.
  apply (load_ignores_root_tag
           (put_file "sequences/cues.xml" (XmlFile cues_doc_with_step) (empty_world []))
           "sequences/cues.xml" cues_doc_with_step "Sequence").
  vm_compute. reflexivity.
Defined.

(** C9, as the specification states it, fails: a document whose root is
    [Cues] is not rejected, its [Step] children are returned. *)
Lemma load_accepts_cues_root :
  tag cues_doc_with_step <> "Sequence"
  /\ fst (_read_sequence_xml "sequences/cues.xml"
            (put_file "sequences/cues.xml" (XmlFile cues_doc_with_step) (empty_world [])))
     = Ok [step_dict (mkStep 2 true 500)].
Proof. split; [ discriminate | vm_compute; reflexivity ]. Qed.

End Store.

(** ** The switch-state codec *)

Section Codec.

Lemma py_bool_default_flag (o : option bool) :
  py_bool (default (PBool false) (PBool <$> o)) = default false o.
Proof. destruct o; reflexivity. Qed.

(** C7. For a cue that maps each of [Switch1] .. [Switch8] to a boolean or
    leaves it out, the codec returns the eight pairs [(0, s1)] .. [(7, s8)]
    in this order, a missing switch counting as false; being a total
    function it cannot fail. *)
Theorem build_pairs_from_cue_spec (cue : Cue) (s : Z -> option bool) :
  (forall i, 1 <= i <= 8 -> cue !! switch_tag i = PBool <$> s i) ->
  _build_pairs_from_cue cue
  = [(0, default false (s 1)); (1, default false (s 2)); (2, default false (s 3));
     (3, default false (s 4)); (4, default false (s 5)); (5, default false (s 6));
     (6, default false (s 7)); (7, default false (s 8))].
Proof.
  intros H. unfold _build_pairs_from_cue.
  change (py_range 1 9) with [1; 2; 3; 4; 5; 6; 7; 8]. cbn [map].
  rewrite !H by lia. rewrite !py_bool_default_flag. reflexivity.
Qed.

Lemma build_pairs_from_cue_witness :
  _build_pairs_from_cue blackout
  = [(0, true); (1, false); (2, false); (3, false);
     (4, false); (5, false); (6, false); (7, false)].
Proof.
  apply (build_pairs_from_cue_spec blackout (fun i => if i =? 1 then Some true else None)).
  intros i Hi.
  assert (Hcases : i = 1 \/ i = 2 \/ i = 3 \/ i = 4 \/ i = 5 \/ i = 6 \/ i = 7 \/ i = 8) by lia.
  destruct Hcases as [-> | [-> | [-> | [-> | [-> | [-> | [-> | ->]]]]]]];
    vm_compute; reflexivity.
Defined.

End Codec.

(** ** The single-cue sender *)

Section SingleCue.

(** A sequence saved by the sequence store is refused by the reader the
    single-cue sender uses, before any request is made. *)
Lemma stored_sequence_refused (w : World) (path base_url : string) (steps : list Step) :
  let w' := snd (_write_sequence_xml path (map step_dict steps) w) in
  execute_sequence_from_file path base_url w'
  = (Raise (ValueError "Expected root <Cues>, got <Sequence>"), w').
Proof.
  cbn zeta. unfold _write_sequence_xml, bind, liftR.
  rewrite map_result_write_steps. unfold ET_write. cbn [snd].
  unfold execute_sequence_from_file, bind, ET_parse. cbn [fs].
  rewrite lookup_insert_eq, tag_fold_SubElement. reflexivity.
Qed.

(** Whatever status the device answers with, a cue without a sequence
    yields a message and no exception. *)
Lemma post_cue_sync_any_status (host : string) (cue : Cue) (w : World)
    (r : Response) (rest : list net_outcome) :
  cue_sequence cue = Ok "" ->
  net w = Responded r :: rest ->
  fst (_post_cue_sync true host cue w)
  = Ok (str_of_int (status_code r) +:+ " — " +:+ str_take 120 (resp_text r)).
Proof.
  intros Hseq Hnet. unfold _post_cue_sync, bind, liftR. cbn [negb].
  rewrite Hseq. cbn [String.eqb negb]. unfold ret at 1.
  unfold http_post. rewrite Hnet. reflexivity.
Qed.

(** C1, at the failing input. The cue names [warmup], the file
    [sequences/warmup.xml] is a cue document and the device accepts every
    request: after the request of the file, the cue's own eight pairs are
    sent as well. *)
Theorem post_cue_sync_sends_own_pairs_too :
  fst (_post_cue_sync true "192.168.0.100" warmup_cue cues_doc_world) = Ok "200 — ok"
  /\ posts_of (trace (snd (_post_cue_sync true "192.168.0.100" warmup_cue cues_doc_world)))
     = [(Requests, [[(2, true)]]); (Httpx, [blackout_pairs])].
Proof. split; vm_compute; reflexivity. Qed.

(** C2, at the failing input. The cue names the sequence [warmup] that the
    store has saved with the two steps of the scenario: the sender raises
    and not one request is made, where the specification expects the two calls
    of [spec_sequence_calls]. *)
Theorem post_cue_sync_stored_sequence_fails :
  fst (_post_cue_sync true "192.168.0.100" warmup_cue warmup_world)
  = Raise (ValueError "Expected root <Cues>, got <Sequence>")
  /\ posts_of (trace (snd (_post_cue_sync true "192.168.0.100" warmup_cue warmup_world))) = []
  /\ spec_sequence_calls warmup_steps = [[[(2, true)]]; [[(2, false)]]].
Proof. repeat split; vm_compute; reflexivity. Qed.

(** C3, at the failing input. The device answers [500]: the single-cue
    sender returns a message as for a success, and once the result is
    delivered the status line shows it as one. *)
Theorem post_cue_sync_accepts_500 :
  _post_cue_sync true "192.168.0.100" blackout failing_device
  = (Ok "500 — relay fault",
     mkWorld ∅ []
       [HttpPost Httpx "http://192.168.0.100/restapi/relay/set_outlet_transient_states/"
          [blackout_pairs]])
  /\ dli_status (run_events blackout_app blackout_run)
     = "DLI (HTTP): 500 — relay fault — Blackout".
Proof. split; vm_compute; reflexivity. Qed.

End SingleCue.

(** ** The batch runner *)

Section Batch.

Lemma insert_by_key_perm {A} (key : A -> Z) (x : A) (l : list A) :
  Permutation (insert_by_key key x l) (x :: l).
Proof.
  induction l as [| y r IH]; cbn [insert_by_key]; [ reflexivity | ].
  destruct (key x <=? key y); [ reflexivity | ].
  rewrite IH. apply perm_swap.
Qed.

Lemma sort_by_key_perm {A} (key : A -> Z) (l : list A) :
  Permutation (sort_by_key key l) l.
Proof.
  induction l as [| x r IH]; cbn [sort_by_key]; [ reflexivity | ].
  rewrite insert_by_key_perm. now rewrite IH.
Qed.

Lemma insert_by_key_hd {A} (key : A -> Z) (a x : A) (l : list A) :
  key a <= key x ->
  HdRel (fun u v => key u <= key v) a l ->
  HdRel (fun u v => key u <= key v) a (insert_by_key key x l).
Proof.
  intros Hax Hl. destruct l as [| y r]; cbn [insert_by_key].
  - now constructor.
  - destruct (key x <=? key y); constructor; [ exact Hax | now inversion Hl ].
Qed.

Lemma insert_by_key_sorted {A} (key : A -> Z) (x : A) (l : list A) :
  Sorted (fun u v => key u <= key v) l ->
  Sorted (fun u v => key u <= key v) (insert_by_key key x l).
Proof.
  induction 1 as [| y r Hr IH Hhd]; cbn [insert_by_key].
  - repeat constructor.
  - destruct (Z.leb_spec (key x) (key y)) as [Hle | Hgt].
    + constructor; [ now constructor | now constructor ].
    + constructor; [ exact IH | ]. apply insert_by_key_hd; [ lia | exact Hhd ].
Qed.

Lemma sort_by_key_sorted {A} (key : A -> Z) (l : list A) :
  Sorted (fun u v => key u <= key v) (sort_by_key key l).
Proof.
  induction l as [| x r IH]; cbn [sort_by_key]; [ constructor | ].
  now apply insert_by_key_sorted.
Qed.

(** The collecting loop keeps the cues in document order and pairs each
    with its integer order. *)
Lemma collect_ok (l : list Element) (cues : list (Z * Element)) :
  map_result cue_order l = Ok cues ->
  Forall2 (fun c oc => order_of c = Some (fst oc) /\ snd oc = c) l cues.
Proof.
  revert cues. induction l as [| c r IH]; intros cues; cbn [map_result].
  - intros [= <-]. constructor.
  - unfold cue_order at 1, order_of.
    destruct (el_get c "order") as [raw |] eqn:Hraw; [ | discriminate ].
    destruct (py_int raw) as [z |] eqn:Hz; [ | discriminate ].
    destruct (map_result cue_order r) as [ocs | e]; [ | discriminate ].
    intros [= <-]. constructor; [ | now apply IH ].
    unfold order_of. now rewrite Hraw.
Qed.

(** The collecting loop raises exactly when some cue lacks an integer
    order, and what it raises is a [ValueError]. *)
Lemma collect_raise (l : list Element) (e : exn) :
  map_result cue_order l = Raise e ->
  (exists cue, cue ∈ l /\ order_of cue = None) /\ exists msg, e = ValueError msg.
Proof.
  induction l as [| c r IH]; cbn [map_result]; [ discriminate | ].
  unfold cue_order at 1.
  destruct (el_get c "order") as [raw |] eqn:Hraw.
  - destruct (py_int raw) as [z |] eqn:Hz.
    + destruct (map_result cue_order r) as [ocs | e'] eqn:Hr; [ discriminate | ].
      intros [= ->]. destruct (IH eq_refl) as [(cue & Hin & Hcue) Hmsg].
      split; [ | exact Hmsg ]. exists cue. split; [ now right | exact Hcue ].
    + intros [= <-]. split; [ | eauto ].
      exists c. split; [ now left | ]. unfold order_of. now rewrite Hraw.
  - intros [= <-]. split; [ | eauto ].
    exists c. split; [ now left | ]. unfold order_of. now rewrite Hraw.
Qed.

Lemma posts_of_app (t1 t2 : list io_event) :
  posts_of (t1 ++ t2) = posts_of t1 ++ posts_of t2.
Proof. unfold posts_of. apply omap_app. Qed.

(** One turn of the executing loop: either the cue is refused before any
    request, or exactly one request carries the pairs of its switch
    children, and the turn ends well only if the device let it pass. *)
Lemma run_cue_cases (url : string) (cue : Element) (w : World) :
  (cue_payload cue = None /\ exists e, run_cue url cue w = (Raise e, w))
  \/ (exists p, cue_payload cue = Some p
       /\ posts_of (trace (snd (run_cue url cue w))) = posts_of (trace w) ++ [(Requests, p)]
       /\ net (snd (run_cue url cue w)) = tail (net w)
       /\ (fst (run_cue url cue w) = Ok tt ->
           exists o, head (net w) = Some o /\ http_success o = true)).
Proof.
  unfold run_cue, cue_payload, bind, liftR.
  destruct (cue_steps cue) as [[| first others] | e].
  - left. split; [ reflexivity | ]. eexists. reflexivity.
  - right. eexists. split; [ reflexivity | ].
    unfold http_post.
    destruct (net w) as [| [r | msg] rest] eqn:Hnet; cbn [fst snd trace net].
    + rewrite posts_of_app. repeat split; [ discriminate ].
    + unfold raise_for_status, raise, ret. unfold http_success.
      destruct ((400 <=? status_code r) && (status_code r <? 500)) eqn:H4.
      { cbn [fst snd trace net tail]. rewrite posts_of_app.
        repeat split; discriminate. }
      destruct ((500 <=? status_code r) && (status_code r <? 600)) eqn:H5.
      { cbn [fst snd trace net tail]. rewrite posts_of_app.
        repeat split; discriminate. }
      assert (Hok : negb ((400 <=? status_code r) && (status_code r <? 600)) = true).
      { apply negb_true_iff. apply andb_false_iff.
        apply andb_false_iff in H4, H5. lia. }
      destruct (cue_delay cue) as [d | e]; cbn [fst snd trace net tail head].
      * unfold sleep_ms, ret.
        destruct (0 <? d); cbn [fst snd trace net];
          rewrite ?posts_of_app; cbn [posts_of omap]; rewrite ?app_nil_r;
          repeat split; eauto.
      * rewrite posts_of_app. repeat split; discriminate.
    + rewrite posts_of_app. repeat split; discriminate.
  - left. split; [ reflexivity | ]. eexists. reflexivity.
Qed.

(** The executing loop: requests are made for a prefix of the cues, one
    each and in the order of the list, every request before the last one
    made was let pass by the device, and the loop ends well only after
    the whole list. *)
Lemma for_each_run_cue (url : string) (l : list (Z * Element)) (w : World) :
  let out := for_each l (fun t => run_cue url (snd t)) w in
  exists (n : nat) (ps : list (http_client * Payload)),
    (n <= length l)%nat
    /\ posts_of (trace (snd out)) = posts_of (trace w) ++ ps
    /\ Forall2 (fun post t => fst post = Requests /\ cue_payload (snd t) = Some (snd post))
         ps (take n l)
    /\ (fst out = Ok tt -> n = length l)
    /\ (forall k, (S k < n)%nat -> exists o, net w !! k = Some o /\ http_success o = true).
Proof.
  cbn zeta. revert w. induction l as [| t r IH]; intros w.
  - exists 0%nat, []. cbn [for_each ret fst snd length take].
    rewrite app_nil_r. repeat split; [ lia | constructor | lia ].
  - cbn [for_each]. unfold bind.
    destruct (run_cue_cases url (snd t) w) as [[Hnone [e He]] | (p & Hp & Hposts & Hnet & Hok)].
    + rewrite He. exists 0%nat, []. cbn [fst snd length take].
      rewrite app_nil_r. repeat split; [ lia | constructor | discriminate | lia ].
    + destruct (run_cue url (snd t) w) as [[[] | e] w1] eqn:Hrun; cbn [fst snd] in *.
      * destruct (IH w1) as (n & ps & Hn & Hps & Hall & Hend & Hpass).
        exists (S n), ((Requests, p) :: ps). cbn [length take].
        repeat split.
        -- lia.
        -- rewrite Hps, Hposts, <- app_assoc. reflexivity.
        -- constructor; [ now split | exact Hall ].
        -- intros Hfin. now rewrite (Hend Hfin).
        -- intros k Hk. destruct k as [| k].
           ++ destruct (Hok eq_refl) as (o & Ho & Hs). exists o.
              split; [ | exact Hs ]. now rewrite <- head_lookup.
           ++ destruct (Hpass k) as (o & Ho & Hs); [ lia | ].
              exists o. split; [ | exact Hs ]. now rewrite <- lookup_tail, <- Hnet.
      * exists 1%nat, [(Requests, p)]. cbn [length take].
        repeat split.
        -- lia.
        -- exact Hposts.
        -- constructor; [ now split | ]. destruct r; constructor.
        -- discriminate.
        -- intros k Hk. lia.
Qed.

(** A turn that ends well has made its request and slept the delay. *)
Lemma run_cue_ok (url : string) (cue : Element) (w : World) :
  fst (run_cue url cue w) = Ok tt ->
  trace (snd (run_cue url cue w)) = trace w ++ turn_events url cue.
Proof.
  unfold run_cue, turn_events, cue_payload, bind, liftR.
  destruct (cue_steps cue) as [[| first others] | e]; [ discriminate | | discriminate ].
  unfold http_post.
  destruct (net w) as [| [r | msg] rest]; cbn [fst snd trace]; [ discriminate | | discriminate ].
  unfold raise_for_status, raise, ret.
  destruct ((400 <=? status_code r) && (status_code r <? 500)); [ discriminate | ].
  destruct ((500 <=? status_code r) && (status_code r <? 600)); [ discriminate | ].
  destruct (cue_delay cue) as [d | e]; cbn [fst snd trace]; [ | discriminate ].
  unfold sleep_ms, ret. intros _.
  destruct (0 <? d); cbn [fst snd trace]; rewrite <- ?app_assoc; reflexivity.
Qed.

Lemma for_each_ok (url : string) (l : list (Z * Element)) (w : World) :
  fst (for_each l (fun t => run_cue url (snd t)) w) = Ok tt ->
  trace (snd (for_each l (fun t => run_cue url (snd t)) w))
  = trace w ++ flat_map (fun t => turn_events url (snd t)) l.
Proof.
  revert w. induction l as [| t r IH]; intros w; cbn [for_each flat_map].
  - intros _. cbn. now rewrite app_nil_r.
  - unfold bind. pose proof (run_cue_ok url (snd t) w) as Hturn.
    destruct (run_cue url (snd t) w) as [[[] | e] w1]; cbn [fst snd] in *; [ | discriminate ].
    intros Hrest. rewrite (IH w1 Hrest), (Hturn eq_refl). now rewrite <- app_assoc.
Qed.

Lemma fs_oblivious_ret {A} (a : A) : fs_oblivious (ret a).
Proof. intros w fs'. reflexivity. Qed.

Lemma fs_oblivious_raise {A} (e : exn) : fs_oblivious (@raise A e).
Proof. intros w fs'. reflexivity. Qed.

Lemma fs_oblivious_liftR {A} (r : result A) : fs_oblivious (liftR r).
Proof. intros w fs'. reflexivity. Qed.

Lemma fs_oblivious_bind {A B} (c : M A) (k : A -> M B) :
  fs_oblivious c -> (forall a, fs_oblivious (k a)) -> fs_oblivious (bind c k).
Proof.
  intros Hc Hk w fs'. unfold bind. rewrite Hc.
  destruct (c w) as [[a | e] w1]; cbn [fst snd]; [ apply Hk | reflexivity ].
Qed.

Lemma fs_oblivious_http_post (client : http_client) (url : string) (p : Payload) :
  fs_oblivious (http_post client url p).
Proof.
  intros w fs'. unfold http_post, set_fs. cbn [net trace fs].
  destruct (net w) as [| [r | msg] rest]; reflexivity.
Qed.

Lemma fs_oblivious_sleep (ms : Z) : fs_oblivious (sleep_ms ms).
Proof. intros w fs'. reflexivity. Qed.

Lemma fs_oblivious_raise_for_status (url : string) (r : Response) :
  fs_oblivious (raise_for_status url r).
Proof.
  unfold raise_for_status.
  destruct ((400 <=? status_code r) && (status_code r <? 500));
    [ apply fs_oblivious_raise | ].
  destruct ((500 <=? status_code r) && (status_code r <? 600));
    [ apply fs_oblivious_raise | apply fs_oblivious_ret ].
Qed.

Lemma fs_oblivious_run_cue (url : string) (cue : Element) : fs_oblivious (run_cue url cue).
Proof.
  unfold run_cue. apply fs_oblivious_bind; [ apply fs_oblivious_liftR | ].
  intros [| first others]; [ apply fs_oblivious_raise | ].
  apply fs_oblivious_bind; [ apply fs_oblivious_http_post | ]. intros resp.
  apply fs_oblivious_bind; [ apply fs_oblivious_raise_for_status | ]. intros _.
  apply fs_oblivious_bind; [ apply fs_oblivious_liftR | ]. intros d.
  destruct (0 <? d); [ apply fs_oblivious_sleep | apply fs_oblivious_ret ].
Qed.

Lemma fs_oblivious_for_each {A} (l : list A) (body : A -> M unit) :
  (forall x, fs_oblivious (body x)) -> fs_oblivious (for_each l body).
Proof.
  intros Hbody. induction l as [| x r IH]; cbn [for_each].
  - apply fs_oblivious_ret.
  - apply fs_oblivious_bind; [ apply Hbody | intros _; exact IH ].
Qed.

(** The batch runner never touches the files: no sequence is resolved. *)
Lemma fs_oblivious_execute_sequence (root : Element) (base_url : string) :
  fs_oblivious (execute_sequence root base_url).
Proof.
  unfold execute_sequence. apply fs_oblivious_bind; [ apply fs_oblivious_liftR | ].
  intros cues. apply fs_oblivious_for_each. intros t. apply fs_oblivious_run_cue.
Qed.

(** C4, as the code has it. The batch runner first collects the cues: if
    one of them has no integer order it raises a [ValueError] and makes no
    request. Otherwise it sorts the cues by order, ascending, and makes its
    requests for a prefix of the sorted list, one request per cue, which
    carries the pairs of the cue's own switch children; it makes a further
    request only after the device let the previous one pass, and it ends
    well only after the last cue, having then made for each cue in turn
    its request followed by the sleep of its delay when that is positive. The files are not consulted, so no
    sequence is resolved whatever a cue's [sequence] attribute says. Rows
    with the orders 3, 1, 2 are sent in the order 1, 2, 3. *)
Theorem execute_sequence_batch (root : Element) (base_url : string) (w : World) :
  let cues_in := findall "Cue" root in
  let out := execute_sequence root base_url w in
  match map_result cue_order cues_in with
  | Raise e =>
      (exists cue, cue ∈ cues_in /\ order_of cue = None)
      /\ (exists msg, e = ValueError msg)
      /\ out = (Raise e, w)
  | Ok cues =>
      let sorted := sort_by_key fst cues in
      Forall2 (fun c oc => order_of c = Some (fst oc) /\ snd oc = c) cues_in cues
      /\ Sorted order_le sorted
      /\ Permutation sorted cues
      /\ (fst out = Ok tt ->
          trace (snd out)
          = trace w ++ flat_map (fun t => turn_events (api_url base_url) (snd t)) sorted)
      /\ exists (n : nat) (ps : list (http_client * Payload)),
           (n <= length sorted)%nat
           /\ posts_of (trace (snd out)) = posts_of (trace w) ++ ps
           /\ Forall2 (fun post t => fst post = Requests
                                      /\ cue_payload (snd t) = Some (snd post))
                ps (take n sorted)
           /\ (fst out = Ok tt -> n = length sorted)
           /\ (forall k, (S k < n)%nat ->
                exists o, net w !! k = Some o /\ http_success o = true)
  end
  /\ (forall fs', execute_sequence root base_url (set_fs fs' w)
                  = (fst out, set_fs fs' (snd out)))
  /\ posts_of (trace (snd (_menu_run_worker "192.168.0.100" rows_312
                             (empty_world [ok200 "ok"; ok200 "ok"; ok200 "ok"]))))
     = [(Requests, [pairs_on 1]); (Requests, [pairs_on 2]); (Requests, [pairs_on 3])].
Proof.
  cbn zeta. split; [ | split ].
  - destruct (map_result cue_order (findall "Cue" root)) as [cues | e] eqn:Hcollect.
    + split; [ now apply collect_ok | ].
      split; [ apply sort_by_key_sorted | ].
      split; [ apply sort_by_key_perm | ].
      unfold execute_sequence, bind, liftR. rewrite Hcollect.
      split; [ apply for_each_ok | apply for_each_run_cue ].
    + destruct (collect_raise _ _ Hcollect) as [Hbad Hmsg].
      split; [ exact Hbad | ]. split; [ exact Hmsg | ].
      unfold execute_sequence, bind, liftR. now rewrite Hcollect.
  - intros fs'. apply fs_oblivious_execute_sequence.
  - vm_compute. reflexivity.
Qed.

Lemma execute_sequence_batch_witness :
  let root := cues_element rows_312 in
  let w := empty_world [ok200 "ok"; ok200 "ok"; ok200 "ok"] in
  let cues_in := findall "Cue" root in
  let out := execute_sequence root "http://192.168.0.100" w in
  match map_result cue_order cues_in with
  | Raise e =>
      (exists cue, cue ∈ cues_in /\ order_of cue = None)
      /\ (exists msg, e = ValueError msg)
      /\ out = (Raise e, w)
  | Ok cues =>
      let sorted := sort_by_key fst cues in
      Forall2 (fun c oc => order_of c = Some (fst oc) /\ snd oc = c) cues_in cues
      /\ Sorted order_le sorted
      /\ Permutation sorted cues
      /\ (fst out = Ok tt ->
          trace (snd out)
          = trace w ++ flat_map (fun t => turn_events (api_url "http://192.168.0.100") (snd t))
                        sorted)
      /\ exists (n : nat) (ps : list (http_client * Payload)),
           (n <= length sorted)%nat
           /\ posts_of (trace (snd out)) = posts_of (trace w) ++ ps
           /\ Forall2 (fun post t => fst post = Requests
                                      /\ cue_payload (snd t) = Some (snd post))
                ps (take n sorted)
           /\ (fst out = Ok tt -> n = length sorted)
           /\ (forall k, (S k < n)%nat ->
                exists o, net w !! k = Some o /\ http_success o = true)
  end
  /\ (forall fs', execute_sequence root "http://192.168.0.100" (set_fs fs' w)
                  = (fst out, set_fs fs' (snd out)))
  /\ posts_of (trace (snd (_menu_run_worker "192.168.0.100" rows_312
                             (empty_world [ok200 "ok"; ok200 "ok"; ok200 "ok"]))))
     = [(Requests, [pairs_on 1]); (Requests, [pairs_on 2]); (Requests, [pairs_on 3])].
Proof.
  exact (execute_sequence_batch (cues_element rows_312) "http://192.168.0.100"
           (empty_world [ok200 "ok"; ok200 "ok"; ok200 "ok"])).
Defined.

(** C4, as the specification states it, fails: the cue of the batch names
    the sequence [warmup], which the store holds and loads, yet the batch
    runner sends the cue's own eight pairs in one request and not the two
    calls of the steps. *)
Lemma batch_ignores_sequence_ref :
  cue_sequence warmup_cue = Ok "warmup"
  /\ fst (_read_sequence_xml warmup_path warmup_world) = Ok (map step_dict warmup_steps)
  /\ map snd (posts_of (trace (snd (execute_sequence warmup_root "http://192.168.0.100"
                                      warmup_world))))
     = [[blackout_pairs]]
  /\ [[blackout_pairs]] <> spec_sequence_calls warmup_steps.
Proof.
  split; [ vm_compute; reflexivity | ].
  split; [ vm_compute; reflexivity | ].
  split; [ vm_compute; reflexivity | ].
  vm_compute. discriminate.
Qed.

End Batch.

(** ** The dispatch of the selected cue *)

Section Dispatch.

(** Unfolds the handlers down to the record fields. *)
Ltac unfold_handlers :=
  unfold run_callback, worker, _on_tree_select, _debounced_send_for_iid, on_closing,
    _begin_send_selected, _finish_send, _safe_after, after_cancel, _set_busy,
    set_status, set_cursor, set_pending, set_seq, set_closing, set_exists,
    set_queue, set_next_id, set_threads, set_rows in *.

Ltac handler_cases :=
  unfold_handlers; cbn in *; try done;
  repeat (case_match; cbn in *; simplify_eq; try done).

Lemma run_events_app (s : App) (evs1 evs2 : list event) :
  run_events s (evs1 ++ evs2) = run_events (run_events s evs1) evs2.
Proof. unfold run_events. apply fold_left_app. Qed.

(** The generation counter never goes down. *)
Lemma step_seq_mono (s : App) (ev : event) : _send_seq s <= _send_seq (step s ev).
Proof.
  destruct ev; cbn [step]; handler_cases; lia.
Qed.

Lemma run_events_seq_mono (s : App) (evs : list event) :
  _send_seq s <= _send_seq (run_events s evs).
Proof.
  revert s. induction evs as [| ev r IH]; intros s; cbn; [ lia | ].
  etransitivity; [ apply (step_seq_mono s ev) | apply IH ].
Qed.

(** A result of another generation than the current one changes nothing. *)
Lemma finish_send_stale (s : App) (g : Z) (ok : bool) (msg : string) (cue : Cue) :
  g <> _send_seq s -> _finish_send g ok msg cue s = s.
Proof.
  intros Hg. unfold _finish_send.
  destruct (_is_closing s || negb (winfo_exists s)); [ reflexivity | ].
  destruct (Z.eqb_spec g (_send_seq s)); [ contradiction | reflexivity ].
Qed.

(** Only the delivery of a result of the current generation changes the
    status line, and the line it leaves is the one of that result. *)
Lemma step_status_change (s : App) (ev : event) :
  dli_status (step s ev) <> dli_status s ->
  exists id ok msg cue,
    ev = EvAfter id
    /\ after_queue s !! id = Some (CbFinish (_send_seq s) ok msg cue)
    /\ dli_status (step s ev) = status_line ok msg cue.
Proof.
  destruct ev as [sel | id | k w | rows |]; cbn [step].
  - handler_cases.
  - destruct (after_queue s !! id) as [[iid | g ok msg cue] |] eqn:Hq; [ | | done ].
    + handler_cases.
    + cbn [run_callback]. unfold _finish_send. cbn [_is_closing winfo_exists set_queue _send_seq].
      destruct (_is_closing s || negb (winfo_exists s)); [ done | ].
      destruct (Z.eqb_spec g (_send_seq s)) as [-> | Hne]; [ | done ].
      intros _. exists id, ok, msg, cue.
      split; [ reflexivity | ]. split; [ exact Hq | reflexivity ].
  - handler_cases.
  - handler_cases.
  - handler_cases.
Qed.


(** C5. Once the generation counter has passed [g], a result tagged [g]
    is discarded whenever it is received: [g] differs from the current
    generation and [_finish_send] leaves the application as it is. An event
    changes the status line only if it delivers a result whose tag is the
    generation current at that time, and the line is then the one of that
    result: the status shown is never the one of an older send completing
    later. *)
Theorem stale_result_discarded (s : App) (evs : list event)
    (g : Z) (ok : bool) (msg : string) (cue : Cue) :
  g < _send_seq s ->
  let s' := run_events s evs in
  g <> _send_seq s'
  /\ _finish_send g ok msg cue s' = s'
  /\ (forall ev,
        dli_status (step s' ev) <> dli_status s' ->
        exists id ok' msg' cue',
          ev = EvAfter id
          /\ after_queue s' !! id = Some (CbFinish (_send_seq s') ok' msg' cue')
          /\ dli_status (step s' ev) = status_line ok' msg' cue').
Proof.
  intros Hg s'.
  assert (Hne : g <> _send_seq s').
  { pose proof (run_events_seq_mono s evs). subst s'. lia. }
  split; [ exact Hne | ]. split; [ now apply finish_send_stale | ].
  intros ev. apply step_status_change.
Qed.

Lemma stale_result_discarded_witness :
  1 < _send_seq two_sends
  /\ let s' := run_events two_sends (first_worker_ends 2) in
     1 <> _send_seq s'
     /\ _finish_send 1 true "200 — ok" (row 1) s' = s'
     /\ (forall ev,
           dli_status (step s' ev) <> dli_status s' ->
           exists id ok' msg' cue',
             ev = EvAfter id
             /\ after_queue s' !! id = Some (CbFinish (_send_seq s') ok' msg' cue')
             /\ dli_status (step s' ev) = status_line ok' msg' cue').
Proof.
  assert (Hg : 1 < _send_seq two_sends) by (vm_compute; reflexivity).
  split; [ exact Hg | ].
  exact (stale_result_discarded two_sends (first_worker_ends 2) 1 true "200 — ok" (row 1) Hg).
Defined.




















End Dispatch.

(* ===================================================================== *)
(** * Part III: the grid, the dialogs, the cue file and further cases     *)
(* ===================================================================== *)

(** ** Tactics *)

Ltac unfold_handlers :=
  unfold run_callback, worker, _on_tree_select, _debounced_send_for_iid, on_closing,
    _begin_send_selected, _finish_send, _safe_after, after_cancel, _set_busy,
    set_status, set_cursor, set_pending, set_seq, set_closing, set_exists,
    set_queue, set_next_id, set_threads, set_rows in *.

(** Reduces the projections of an updated state. *)
Ltac fields :=
  unfold after_cancel, _set_busy, set_status, set_cursor, set_pending, set_seq,
    set_closing, set_exists, set_queue, set_next_id, set_threads, set_rows in *;
  cbn [row_data_by_iid dli_status cursor _pending_send_id _send_seq _is_closing
       winfo_exists HAS_HTTPX device_host after_queue next_after_id threads fst snd] in *.

Ltac map_lookup :=
  repeat first
    [ rewrite lookup_insert_eq
    | rewrite lookup_insert_ne by discriminate
    | rewrite lookup_empty ].

(** Writes the tags of the eight switches out. *)
Ltac switch_literals :=
  change (py_range 1 9) with [1; 2; 3; 4; 5; 6; 7; 8] in *;
  cbn [fold_left map] in *;
  change (switch_tag 1) with "Switch1" in *; change (switch_tag 2) with "Switch2" in *;
  change (switch_tag 3) with "Switch3" in *; change (switch_tag 4) with "Switch4" in *;
  change (switch_tag 5) with "Switch5" in *; change (switch_tag 6) with "Switch6" in *;
  change (switch_tag 7) with "Switch7" in *; change (switch_tag 8) with "Switch8" in *.

(** Decides the comparisons of literal strings left in the goal. *)
Ltac string_tests :=
  repeat match goal with
    | |- context [String.eqb ?a ?b] =>
        let v := eval vm_compute in (String.eqb a b) in
        change (String.eqb a b) with v; cbv iota
    end.

(** ** After the window is closed *)

Section Closing.

Lemma begin_send_closing (s : App) (iid : string) :
  _is_closing s = true -> _begin_send_selected iid s = s.
Proof. intros Hc. unfold _begin_send_selected. now rewrite Hc. Qed.

Lemma finish_send_closing (s : App) (g : Z) (ok : bool) (msg : string) (cue : Cue) :
  _is_closing s = true -> _finish_send g ok msg cue s = s.
Proof. intros Hc. unfold _finish_send. now rewrite Hc. Qed.

Lemma safe_after_closing (s : App) (ms : Z) (func : callback) :
  _is_closing s = true -> _safe_after ms func s = (s, None).
Proof. intros Hc. unfold _safe_after. now rewrite Hc. Qed.

Lemma closing_step (s : App) (ev : event) :
  _is_closing s = true ->
  dli_status (step s ev) = dli_status s
  /\ cursor (step s ev) = cursor s
  /\ _send_seq (step s ev) = _send_seq s
  /\ threads (step s ev) = threads s
  /\ _is_closing (step s ev) = true
  /\ after_queue (step s ev) ⊆ after_queue s.
Proof.
  intros Hc. destruct ev as [sel | id | k w | rows' |]; cbn [step].
  - destruct sel as [| iid sel]; cbn [_on_tree_select]; [ now repeat split | ].
    unfold _debounced_send_for_iid.
    destruct (_pending_send_id s) as [p |].
    + rewrite safe_after_closing by exact Hc. fields.
      repeat split; try done. apply delete_subseteq.
    + rewrite safe_after_closing by exact Hc. cbn. now repeat split.
  - destruct (after_queue s !! id) as [cb |]; [ | now repeat split ].
    assert (Hrun : run_callback cb (set_queue (delete id (after_queue s)) s)
                   = set_queue (delete id (after_queue s)) s).
    { destruct cb; cbn [run_callback];
        [ now apply begin_send_closing | now apply finish_send_closing ]. }
    rewrite Hrun. cbn. repeat split; try done. apply delete_subseteq.
  - destruct (threads s !! k) as [[my_seq cue] |]; [ | now repeat split ].
    unfold worker.
    destruct (fst (_post_cue_sync (HAS_HTTPX s) (device_host s) cue w));
      rewrite safe_after_closing by exact Hc; now repeat split.
  - fields. now repeat split.
  - unfold on_closing. fields. destruct (_pending_send_id s) as [p |]; fields.
    + repeat split; try done. apply delete_subseteq.
    + now repeat split.
Qed.

Lemma closing_run (evs : list event) (s : App) :
  _is_closing s = true ->
  dli_status (run_events s evs) = dli_status s
  /\ cursor (run_events s evs) = cursor s
  /\ _send_seq (run_events s evs) = _send_seq s
  /\ threads (run_events s evs) = threads s
  /\ _is_closing (run_events s evs) = true
  /\ after_queue (run_events s evs) ⊆ after_queue s.
Proof.
  unfold run_events. revert s.
  induction evs as [| ev r IH]; intros s Hc; cbn [fold_left]; [ now repeat split | ].
  destruct (closing_step s ev Hc) as (H1 & H2 & H3 & H4 & H5 & H6).
  destruct (IH (step s ev) H5) as (K1 & K2 & K3 & K4 & K5 & K6).
  repeat split; try congruence. etransitivity; eassumption.
Qed.

Lemma on_closing_fields (s : App) :
  dli_status (on_closing s) = dli_status s
  /\ cursor (on_closing s) = cursor s
  /\ _send_seq (on_closing s) = _send_seq s
  /\ threads (on_closing s) = threads s
  /\ _is_closing (on_closing s) = true
  /\ after_queue (on_closing s) ⊆ after_queue s.
Proof.
  unfold on_closing. fields. destruct (_pending_send_id s) as [p |]; fields.
  - repeat split; try done. apply delete_subseteq.
  - now repeat split.
Qed.

(** X1. Once [on_closing] has run, no event changes the status line, the
    cursor, the generation counter or the list of started workers: the
    window stays closing, and Tk's table of callbacks only loses entries. *)
Theorem closed_window_is_inert (s : App) (evs : list event) :
  let s' := run_events (on_closing s) evs in
  dli_status s' = dli_status s
  /\ cursor s' = cursor s
  /\ _send_seq s' = _send_seq s
  /\ threads s' = threads s
  /\ _is_closing s' = true
  /\ after_queue s' ⊆ after_queue s.
Proof.
  cbn zeta.
  destruct (on_closing_fields s) as (H1 & H2 & H3 & H4 & H5 & H6).
  destruct (closing_run evs (on_closing s) H5) as (K1 & K2 & K3 & K4 & K5 & K6).
  repeat split; try congruence. etransitivity; eassumption.
Qed.

End Closing.

(** ** The generations of the workers *)

Section Generations.

Lemma py_range_snoc (n : Z) :
  0 <= n -> py_range 1 (n + 1 + 1) = py_range 1 (n + 1) ++ [n + 1].
Proof.
  intros Hn. unfold py_range.
  replace (n + 1 + 1 - 1) with (Z.succ n) by lia.
  replace (n + 1 - 1) with n by lia.
  rewrite Z2Nat.inj_succ by lia. rewrite seq_S, map_app. cbn [map Nat.add].
  do 2 f_equal. lia.
Qed.

Lemma generations_begin (s : App) (iid : string) :
  generations_inv s -> generations_inv (_begin_send_selected iid s).
Proof.
  intros (H0 & Hth & Hq). unfold _begin_send_selected.
  destruct (_is_closing s || negb (winfo_exists s)); [ done | ].
  destruct (row_data_by_iid s !! iid) as [cue |]; [ | done ].
  destruct (bool_decide (cue = ∅)); [ done | ].
  unfold generations_inv. fields. split; [ lia | ]. split.
  - rewrite map_app, Hth. cbn [map fst]. now rewrite py_range_snoc.
  - intros id g ok msg c Hid. apply elem_of_app. left. eauto.
Qed.

Lemma generations_step (s : App) (ev : event) :
  generations_inv s -> generations_inv (step s ev).
Proof.
  intros Hinv. pose proof Hinv as (H0 & Hth & Hq).
  destruct ev as [sel | id | k w | rows' |]; cbn [step].
  - destruct sel as [| iid sel]; cbn [_on_tree_select]; [ exact Hinv | ].
    unfold _debounced_send_for_iid, _safe_after.
    destruct (_pending_send_id s) as [p |]; fields;
      destruct (_is_closing s || negb (winfo_exists s)); fields;
      (split; [ exact H0 | split; [ exact Hth | ] ]);
      intros id g ok msg c Hid; fields;
      try (apply lookup_insert_Some in Hid as [[_ Hid] | [_ Hid]]; [ discriminate Hid | ]);
      try (apply lookup_delete_Some in Hid as [_ Hid]);
      eauto.
  - destruct (after_queue s !! id) as [cb |] eqn:Hcb; [ | exact Hinv ].
    assert (Hdel : generations_inv (set_queue (delete id (after_queue s)) s)).
    { split; [ exact H0 | split; [ exact Hth | ] ]. fields.
      intros id' g ok msg c Hid. apply lookup_delete_Some in Hid as [_ Hid]. eauto. }
    destruct cb as [iid | g ok msg cue]; cbn [run_callback].
    + now apply generations_begin.
    + destruct Hdel as (D0 & Dth & Dq). unfold _finish_send.
      destruct (_is_closing _ || negb (winfo_exists _)); [ now repeat split | ].
      destruct (negb (g =? _)); [ now repeat split | ].
      split; [ exact D0 | split; [ exact Dth | exact Dq ] ].
  - destruct (threads s !! k) as [[my_seq cue] |] eqn:Hk; [ | exact Hinv ].
    unfold worker, _safe_after.
    destruct (fst (_post_cue_sync (HAS_HTTPX s) (device_host s) cue w));
      destruct (_is_closing s || negb (winfo_exists s)); fields; try exact Hinv;
      (split; [ exact H0 | split; [ exact Hth | ] ]);
      intros id g ok msg c Hid; fields;
      (apply lookup_insert_Some in Hid as [[_ Hid] | [_ Hid]];
       [ injection Hid as <- _ _ <-; eapply list_elem_of_lookup_2; exact Hk | eauto ]).
  - exact Hinv.
  - unfold on_closing. fields.
    destruct (_pending_send_id s) as [p |]; fields;
      (split; [ exact H0 | split; [ exact Hth | ] ]);
      intros id g ok msg c Hid; fields;
      try (apply lookup_delete_Some in Hid as [_ Hid]); eauto.
Qed.

Lemma generations_run (evs : list event) (s : App) :
  generations_inv s -> generations_inv (run_events s evs).
Proof.
  unfold run_events. revert s.
  induction evs as [| ev r IH]; intros s Hs; cbn [fold_left]; [ exact Hs | ].
  apply IH. now apply generations_step.
Qed.

Lemma generations_init (rows : gmap string Cue) (httpx : bool) (host : string) :
  generations_inv (init_app rows httpx host).
Proof.
  split; [ cbn; lia | ]. split; [ reflexivity | ].
  intros id g ok msg cue Hid. cbn in Hid. now rewrite lookup_empty in Hid.
Qed.

(** X2. In every state the application reaches from its start, the workers
    started so far carry the generations 1, 2, ... up to [_send_seq], each
    once, and a result that waits for delivery is the one of a started
    worker, for the cue that worker was given. *)
Theorem worker_generations (rows : gmap string Cue) (httpx : bool) (host : string)
    (evs : list event) :
  let s := run_events (init_app rows httpx host) evs in
  map fst (threads s) = py_range 1 (_send_seq s + 1)
  /\ NoDup (map fst (threads s))
  /\ (forall id g ok msg cue,
        after_queue s !! id = Some (CbFinish g ok msg cue) -> (g, cue) ∈ threads s).
Proof.
  cbn zeta.
  destruct (generations_run evs _ (generations_init rows httpx host)) as (H0 & Hth & Hq).
  split; [ exact Hth | ]. split; [ | exact Hq ].
  rewrite Hth. unfold py_range. apply NoDup_fmap_2; [ | apply NoDup_seq ].
  intros a b Hab. lia.
Qed.

End Generations.

(** ** One selection, up to its status line *)

Section Selection.

(** X3. A cue of the grid is selected in an open window, its debounce
    fires, its worker ends and the result is delivered, nothing else coming
    in between: the status line then shows the outcome of
    [_post_cue_sync] for that very cue, the window is no longer busy, and
    one worker was started, of the next generation. *)
Theorem selected_cue_shows_its_outcome (s : App) (iid : string) (cue : Cue) (w : World) :
  _is_closing s = false ->
  winfo_exists s = true ->
  row_data_by_iid s !! iid = Some cue ->
  cue <> ∅ ->
  let s' := run_events s (send_to_completion s iid w) in
  dli_status s'
  = outcome_line (fst (_post_cue_sync (HAS_HTTPX s) (device_host s) cue w)) cue
  /\ is_busy s' = false
  /\ _send_seq s' = _send_seq s + 1
  /\ threads s' = threads s ++ [(_send_seq s + 1, cue)].
Proof.
  intros Hcl Hex Hrow Hcue.
  destruct s as [rows st cur pend seq cl ex hx host q nx th].
  cbn in Hcl, Hex, Hrow. subst cl ex.
  unfold send_to_completion, run_events.
  cbn [fold_left next_after_id threads HAS_HTTPX device_host _send_seq].
  set (q0 := match pend with Some p => delete p q | None => q end).
  (* the selection *)
  assert (H1 : step (mkApp rows st cur pend seq false true hx host q nx th) (EvSelect [iid])
               = mkApp rows st cur (Some nx) seq false true hx host
                       (<[nx := CbBegin iid]> q0) (S nx) th).
  { subst q0. cbn [step _on_tree_select]. unfold _debounced_send_for_iid, _safe_after.
    destruct pend as [p |]; reflexivity. }
  rewrite H1. clear H1.
  (* the debounce fires *)
  assert (H2 : step (mkApp rows st cur (Some nx) seq false true hx host
                           (<[nx := CbBegin iid]> q0) (S nx) th) (EvAfter nx)
               = mkApp rows st "watch" None (seq + 1) false true hx host
                       (delete nx (<[nx := CbBegin iid]> q0)) (S nx)
                       (th ++ [(seq + 1, cue)])).
  { cbn [step after_queue]. rewrite lookup_insert_eq. cbn [run_callback].
    unfold _begin_send_selected. fields. cbn [orb negb]. rewrite Hrow.
    rewrite bool_decide_eq_false_2 by exact Hcue. reflexivity. }
  rewrite H2. clear H2.
  (* the worker ends *)
  cbn [step threads]. rewrite list_lookup_middle by reflexivity.
  unfold worker. cbn [HAS_HTTPX device_host].
  destruct (fst (_post_cue_sync hx host cue w)) as [msg | e];
    unfold _safe_after; fields; cbn [orb negb fst]; fields;
    rewrite lookup_insert_eq; cbn [run_callback];
    unfold _finish_send; fields; cbn [orb negb];
    rewrite Z.eqb_refl; cbn [negb]; fields;
    repeat split; reflexivity.
Qed.

Lemma selected_cue_shows_its_outcome_witness :
  _is_closing three_cue_app = false
  /\ winfo_exists three_cue_app = true
  /\ row_data_by_iid three_cue_app !! "I002" = Some (row 2)
  /\ row 2 <> ∅
  /\ let s' := run_events three_cue_app (send_to_completion three_cue_app "I002" failing_device) in
     dli_status s'
     = outcome_line (fst (_post_cue_sync (HAS_HTTPX three_cue_app) (device_host three_cue_app)
                            (row 2) failing_device)) (row 2)
     /\ is_busy s' = false
     /\ _send_seq s' = _send_seq three_cue_app + 1
     /\ threads s' = threads three_cue_app ++ [(_send_seq three_cue_app + 1, row 2)].
Proof.
  assert (H1 : _is_closing three_cue_app = false) by reflexivity.
  assert (H2 : winfo_exists three_cue_app = true) by reflexivity.
  assert (H3 : row_data_by_iid three_cue_app !! "I002" = Some (row 2))
    by (vm_compute; reflexivity).
  assert (H4 : row 2 <> ∅).
  { intros Heq. apply (f_equal (fun m => m !! "Order")) in Heq.
    vm_compute in Heq. discriminate Heq. }
  split; [ exact H1 | ]. split; [ exact H2 | ]. split; [ exact H3 | ]. split; [ exact H4 | ].
  exact (selected_cue_shows_its_outcome three_cue_app "I002" (row 2) failing_device H1 H2 H3 H4).
Defined.

End Selection.

(** ** The single-cue sender, case by case *)

Section SingleCueCases.

(** X4. For a cue that names no sequence, [_post_cue_sync] sends exactly one
    request, to the device's transient-states address, with the eight pairs
    of the cue for the channels 0 to 7; its result is the status and the text
    of the response, whatever the status, or the error of the transport. *)
Theorem post_cue_sync_without_sequence (host : string) (cue : Cue) (w : World) :
  cue_sequence cue = Ok "" ->
  _post_cue_sync true host cue w
  = (outcome_result (head (net w)),
     mkWorld (fs w) (tail (net w))
       (trace w ++ [HttpPost Httpx (cue_url host) [_build_pairs_from_cue cue]]))
  /\ map fst (_build_pairs_from_cue cue) = [0; 1; 2; 3; 4; 5; 6; 7].
Proof.
  intros Hseq. split; [ | reflexivity ].
  unfold _post_cue_sync, bind, liftR. cbn [negb]. rewrite Hseq.
  cbn [String.eqb negb]. unfold ret at 1. unfold http_post, cue_url.
  destruct (net w) as [| [r | msg] rest]; reflexivity.
Qed.

Lemma post_cue_sync_without_sequence_witness :
  cue_sequence blackout = Ok ""
  /\ (_post_cue_sync true "192.168.0.100" blackout failing_device
      = (outcome_result (head (net failing_device)),
         mkWorld (fs failing_device) (tail (net failing_device))
           (trace failing_device
            ++ [HttpPost Httpx (cue_url "192.168.0.100") [_build_pairs_from_cue blackout]]))
      /\ map fst (_build_pairs_from_cue blackout) = [0; 1; 2; 3; 4; 5; 6; 7]).
Proof.
  assert (H : cue_sequence blackout = Ok "") by (vm_compute; reflexivity).
  split; [ exact H | ].
  exact (post_cue_sync_without_sequence "192.168.0.100" blackout failing_device H).
Defined.

(** X5. For a cue that names a sequence whose file is missing,
    [_post_cue_sync] raises [FileNotFoundError] naming the file it looked
    for, and sends nothing. *)
Theorem post_cue_sync_missing_sequence (host : string) (cue : Cue) (w : World)
    (sequence : string) :
  cue_sequence cue = Ok sequence ->
  sequence <> "" ->
  fs w !! sequence_path sequence = None ->
  _post_cue_sync true host cue w
  = (Raise (FileNotFoundError ("Sequence file not found: " +:+ sequence_path sequence)), w).
Proof.
  intros Hseq Hne Hfile. unfold _post_cue_sync, bind, liftR. cbn [negb]. rewrite Hseq.
  destruct (String.eqb_spec sequence "") as [-> | _]; [ contradiction | ]. cbn [negb].
  unfold path_exists. fold (sequence_path sequence). rewrite Hfile.
  rewrite bool_decide_eq_false_2; [ reflexivity | ]. intros [x Hx]. discriminate Hx.
Qed.

Lemma post_cue_sync_missing_sequence_witness :
  cue_sequence warmup_cue = Ok "warmup"
  /\ "warmup" <> ""
  /\ fs failing_device !! sequence_path "warmup" = None
  /\ _post_cue_sync true "192.168.0.100" warmup_cue failing_device
     = (Raise (FileNotFoundError ("Sequence file not found: " +:+ sequence_path "warmup")),
        failing_device).
Proof.
  assert (H1 : cue_sequence warmup_cue = Ok "warmup") by (vm_compute; reflexivity).
  assert (H2 : "warmup" <> "") by discriminate.
  assert (H3 : fs failing_device !! sequence_path "warmup" = None) by (vm_compute; reflexivity).
  split; [ exact H1 | ]. split; [ exact H2 | ]. split; [ exact H3 | ].
  exact (post_cue_sync_missing_sequence "192.168.0.100" warmup_cue failing_device "warmup"
           H1 H2 H3).
Defined.



Lemma str_length_app (a b : string) :
  String.length (a +:+ b) = (String.length a + String.length b)%nat.
Proof.
  induction a as [| c a IH]; simpl; [ reflexivity | now rewrite IH ].
Qed.

Lemma str_drop_app (a b : string) : str_drop (String.length a) (a +:+ b) = b.
Proof.
  induction a as [| c a IH]; simpl; [ reflexivity | exact IH ].
Qed.

Lemma endswith_app (a p : string) : endswith p (a +:+ p) = true.
Proof.
  unfold endswith. rewrite str_length_app.
  replace (String.length a + String.length p - String.length p)%nat
    with (String.length a) by lia.
  rewrite str_drop_app, String.eqb_refl, andb_true_r.
  apply Nat.leb_le. lia.
Qed.

Lemma lower_app (a b : string) : lower (a +:+ b) = lower a +:+ lower b.
Proof.
  induction a as [| c a IH]; simpl; [ reflexivity | now rewrite IH ].
Qed.

Lemma lstrip_length (s : string) : (String.length (lstrip s) <= String.length s)%nat.
Proof.
  induction s as [| c r IH]; cbn; [ lia | ]. destruct (is_space c); cbn; lia.
Qed.

Lemma rstrip_length (p : ascii -> bool) (s : string) :
  (String.length (rstrip_with p s) <= String.length s)%nat.
Proof.
  induction s as [| c r IH]; cbn; [ lia | ].
  destruct (rstrip_with p r); [ destruct (p c); cbn in *; lia | cbn in *; lia ].
Qed.

(** A stripped, non-empty string begins with a character that is no
    white space. *)
Lemma strip_fixed_head (s : string) :
  strip s = s -> s <> "" -> exists c r, s = String c r /\ is_space c = false.
Proof.
  intros Hs Hne. destruct s as [| c r]; [ contradiction | ].
  exists c, r. split; [ reflexivity | ].
  destruct (is_space c) eqn:Hc; [ | reflexivity ].
  exfalso. unfold strip in Hs. cbn [lstrip] in Hs. rewrite Hc in Hs.
  pose proof (rstrip_length is_space (lstrip r)) as H1.
  pose proof (lstrip_length r) as H2.
  rewrite Hs in H1. cbn in H1. lia.
Qed.

Lemma rstrip_app (p : ascii -> bool) (a b : string) :
  rstrip_with p b <> "" -> rstrip_with p (a +:+ b) = a +:+ rstrip_with p b.
Proof.
  intros Hb. induction a as [| c a IH]; [ reflexivity | ].
  change (String c a +:+ b) with (String c (a +:+ b)).
  change (String c a +:+ rstrip_with p b) with (String c (a +:+ rstrip_with p b)).
  cbn [rstrip_with]. rewrite IH.
  destruct (a +:+ rstrip_with p b) eqn:E; [ | reflexivity ].
  exfalso. destruct a; simpl in E; [ contradiction | discriminate ].
Qed.

Lemma strip_app_xml (s : string) :
  strip s = s -> s <> "" -> strip (s +:+ ".xml") = s +:+ ".xml".
Proof.
  intros Hs Hne. destruct (strip_fixed_head s Hs Hne) as (c & r & -> & Hc).
  unfold strip. change (String c r +:+ ".xml") with (String c (r +:+ ".xml")).
  cbn [lstrip]. rewrite Hc.
  change (String c (r +:+ ".xml")) with (String c r +:+ ".xml").
  rewrite rstrip_app; [ reflexivity | discriminate ].
Qed.

Lemma switch_tag_not_sequence (i : Z) : "Sequence" <> switch_tag i.
Proof. unfold switch_tag. cbn. discriminate. Qed.

Lemma build_pairs_insert_sequence (cue : Cue) (v : pyval) :
  _build_pairs_from_cue (<["Sequence" := v]> cue) = _build_pairs_from_cue cue.
Proof.
  unfold _build_pairs_from_cue. apply map_ext. intros i. cbn zeta. unfold Cue in *.
  now rewrite lookup_insert_ne by apply switch_tag_not_sequence.
Qed.

Lemma cue_sequence_insert (cue : Cue) (s : string) :
  s <> "" -> cue_sequence (<["Sequence" := PStr s]> cue) = Ok (strip s).
Proof.
  intros Hs. unfold cue_sequence, Cue in *. rewrite lookup_insert_eq. cbn [py_bool].
  destruct (String.eqb_spec s "") as [-> | _]; [ contradiction | reflexivity ].
Qed.

Lemma bind_liftR_ok {A B} (a : A) (k : A -> M B) (w : World) :
  bind (liftR (Ok a)) k w = k a w.
Proof. reflexivity. Qed.

(** X6. The extension of a sequence name is optional: for a stripped,
    non-empty name that does not end in [.xml], the sender behaves the same
    whether the cue names the sequence with the extension or without. *)
Theorem sequence_extension_is_optional (host : string) (cue : Cue) (w : World)
    (name : string) :
  strip name = name ->
  name <> "" ->
  endswith ".xml" (lower name) = false ->
  _post_cue_sync true host (<["Sequence" := PStr (name +:+ ".xml")]> cue) w
  = _post_cue_sync true host (<["Sequence" := PStr name]> cue) w.
Proof.
  intros Hstrip Hne Hext.
  assert (Hne' : name +:+ ".xml" <> "").
  { destruct name; [ contradiction | discriminate ]. }
  unfold _post_cue_sync. cbn [negb]. rewrite !build_pairs_insert_sequence.
  rewrite !cue_sequence_insert by assumption.
  rewrite strip_app_xml by assumption. rewrite Hstrip.
  rewrite !bind_liftR_ok. cbn beta.
  rewrite lower_app. change (lower ".xml") with ".xml".
  rewrite endswith_app, Hext.
  destruct (String.eqb_spec (name +:+ ".xml") "") as [E | _]; [ contradiction | ].
  destruct (String.eqb_spec name "") as [E | _]; [ contradiction | ].
  reflexivity.
Qed.

Lemma sequence_extension_is_optional_witness :
  strip "warmup" = "warmup"
  /\ "warmup" <> ""
  /\ endswith ".xml" (lower "warmup") = false
  /\ _post_cue_sync true "192.168.0.100"
       (<["Sequence" := PStr ("warmup" +:+ ".xml")]> blackout) cues_doc_world
     = _post_cue_sync true "192.168.0.100" (<["Sequence" := PStr "warmup"]> blackout)
         cues_doc_world.
Proof.
  assert (H1 : strip "warmup" = "warmup") by reflexivity.
  assert (H2 : "warmup" <> "") by discriminate.
  assert (H3 : endswith ".xml" (lower "warmup") = false) by reflexivity.
  split; [ exact H1 | ]. split; [ exact H2 | ]. split; [ exact H3 | ].
  exact (sequence_extension_is_optional "192.168.0.100" blackout cues_doc_world "warmup"
           H1 H2 H3).
Defined.

End SingleCueCases.

(** ** The batch runner, case by case *)

Section BatchCases.

Lemma insert_by_key_filter {A} (key : A -> Z) (k : Z) (x : A) (l : list A) :
  List.filter (fun y => key y =? k) (insert_by_key key x l)
  = List.filter (fun y => key y =? k) (x :: l).
Proof.
  induction l as [| y r IH]; cbn [insert_by_key]; [ reflexivity | ].
  destruct (Z.leb_spec (key x) (key y)) as [Hle | Hgt]; [ reflexivity | ].
  cbn [List.filter] in *. rewrite IH.
  destruct (Z.eqb_spec (key x) k) as [Hx | Hx];
    destruct (Z.eqb_spec (key y) k) as [Hy | Hy]; try reflexivity.
  lia.
Qed.

(** X7. The sort of the batch runner is stable: the cues of one order
    stay in the order of the document. *)
Theorem sort_keeps_document_order {A} (key : A -> Z) (k : Z) (l : list A) :
  List.filter (fun y => key y =? k) (sort_by_key key l)
  = List.filter (fun y => key y =? k) l.
Proof.
  induction l as [| x r IH]; cbn [sort_by_key]; [ reflexivity | ].
  rewrite insert_by_key_filter. cbn [List.filter]. now rewrite IH.
Qed.

(** X8. The delay of a cue is read only after its request: a cue with
    switches whose delay is no integer has its request sent and answered,
    and the error of the delay is raised afterwards. *)
Theorem run_cue_bad_delay_after_request (url : string) (cue : Element) (w : World)
    (p : Payload) (e : exn) (o : net_outcome) (rest : list net_outcome) :
  cue_payload cue = Some p ->
  cue_delay cue = Raise e ->
  net w = o :: rest ->
  http_success o = true ->
  run_cue url cue w
  = (Raise e, mkWorld (fs w) rest (trace w ++ [HttpPost Requests url p])).
Proof.
  intros Hp Hd Hnet Ho. unfold run_cue, cue_payload, bind, liftR in *.
  destruct (cue_steps cue) as [[| first others] | e']; try discriminate.
  injection Hp as <-. unfold http_post. rewrite Hnet.
  destruct o as [r | msg]; [ | discriminate ]. cbn [http_success] in Ho.
  unfold raise_for_status, raise, ret.
  apply negb_true_iff, andb_false_iff in Ho.
  destruct ((400 <=? status_code r) && (status_code r <? 500)) eqn:H4.
  { apply andb_true_iff in H4. lia. }
  destruct ((500 <=? status_code r) && (status_code r <? 600)) eqn:H5.
  { apply andb_true_iff in H5. lia. }
  now rewrite Hd.
Qed.

Lemma map_result_all_nil {A B} (f : A -> result (list B)) (l : list A) :
  Forall (fun x => f x = Ok []) l ->
  exists groups, map_result f l = Ok groups /\ concat groups = [].
Proof.
  induction 1 as [| x r Hx Hr (groups & Hg & Hc)]; cbn [map_result].
  - exists []. now split.
  - rewrite Hx, Hg. exists ([] :: groups). now split.
Qed.

(** X9. A cue none of whose children is a [SwitchN] element is refused
    with a [ValueError] before any request is sent. *)
Theorem run_cue_without_switches (url : string) (cue : Element) (w : World) :
  Forall (fun child => startswith "Switch" (tag child) = false
                       \/ isdigit (str_drop (String.length "Switch") (tag child)) = false)
         (children cue) ->
  run_cue url cue w
  = (Raise (ValueError "Cue produced no Switch settings (no <SwitchN> elements found)"), w).
Proof.
  intros Hall.
  assert (Hnil : Forall (fun child => switch_child child = Ok []) (children cue)).
  { eapply Forall_impl; [ exact Hall | ]. intros child [H | H]; unfold switch_child.
    - now rewrite H.
    - destruct (startswith "Switch" (tag child)); [ | reflexivity ].
      cbn [negb]. now rewrite H. }
  destruct (map_result_all_nil _ _ Hnil) as (groups & Hg & Hc).
  unfold run_cue, cue_steps, bind, liftR. now rewrite Hg, Hc.
Qed.




Lemma attrib_fold_SubElement (els : list Element) (root : Element) :
  attrib (fold_left SubElement els root) = attrib root.
Proof.
  revert root. induction els as [| e r IH]; intros root; cbn [fold_left];
    [ reflexivity | now rewrite IH ].
Qed.

Lemma tag_cue_element (r : Cue) : tag (cue_element r) = "Cue".
Proof. unfold cue_element. now rewrite tag_fold_SubElement. Qed.

Lemma children_cue_element (r : Cue) :
  children (cue_element r) = map (switch_element r) [1; 2; 3; 4; 5; 6; 7; 8].
Proof. unfold cue_element. now rewrite children_fold_SubElement. Qed.




Lemma el_get_cue_element (r : Cue) (k : string) :
  el_get (cue_element r) k
  = <["delay" := py_str (default (PStr "") (r !! "Delay"))]>
      (<["sequence" := py_str (default (PStr "") (r !! "Sequence"))]>
        (<["order" := match r !! "Order" with
                      | None | Some PNone => ""
                      | Some v => py_str v
                      end]>
          (<["name" := py_str (default (PStr "") (r !! "Cue"))]>
            (∅ : gmap string string)))) !! k.
Proof. unfold el_get, cue_element. now rewrite attrib_fold_SubElement. Qed.


Lemma order_of_blank (r : Cue) : blank_order r -> order_of (cue_element r) = None.
Proof.
  intros Hr. unfold order_of. rewrite el_get_cue_element. map_lookup.
  destruct Hr as [-> | [-> | ->]]; reflexivity.
Qed.


Lemma findall_cues_element (rows : list Cue) :
  findall "Cue" (cues_element rows) = map cue_element rows.
Proof.
  unfold findall, cues_element. rewrite children_fold_SubElement. cbn [children app].
  induction rows as [| r rest IH]; [ reflexivity | ].
  cbn [map List.filter]. rewrite tag_cue_element. cbn [String.eqb].
  change (String.eqb "Cue" "Cue") with true. cbv iota. now f_equal.
Qed.







Lemma collect_rejects (l : list Element) :
  (exists c, c ∈ l /\ order_of c = None) ->
  exists msg, map_result cue_order l = Raise (ValueError msg).
Proof.
  induction l as [| x r IH]; intros (c & Hin & Hc).
  - now apply elem_of_nil in Hin.
  - cbn [map_result]. unfold cue_order at 1.
    destruct (el_get x "order") as [raw |] eqn:Hraw; [ | eauto ].
    destruct (py_int raw) as [z |] eqn:Hz; [ | eauto ].
    apply elem_of_cons in Hin as [-> | Hin].
    + unfold order_of in Hc. rewrite Hraw in Hc. congruence.
    + destruct IH as [msg Hmsg]; [ eauto | ]. rewrite Hmsg. eauto.
Qed.

(** X12. Run all refuses a grid holding a row whose order is blank, with
    a [ValueError], before any request is sent. *)
Theorem menu_run_rejects_blank_order (host : string) (rows : list Cue) (w : World)
    (r : Cue) :
  r ∈ rows ->
  blank_order r ->
  exists msg, _menu_run_worker host rows w = (Raise (ValueError msg), w).
Proof.
  intros Hin Hblank.
  destruct (collect_rejects (map cue_element rows)) as [msg Hmsg].
  { exists (cue_element r). split; [ | now apply order_of_blank ].
    apply list_elem_of_In, in_map, list_elem_of_In, Hin. }
  exists msg. unfold _menu_run_worker, execute_sequence, bind, liftR.
  now rewrite findall_cues_element, Hmsg.
Qed.

Lemma run_cue_bad_delay_after_request_witness :
  cue_payload (cue_element bad_delay_row) = Some [pairs_on 1]
  /\ cue_delay (cue_element bad_delay_row)
     = Raise (ValueError "Invalid Cue delay='soon' (must be integer milliseconds)")
  /\ net three_ok = ok200 "ok" :: [ok200 "ok"; ok200 "ok"]
  /\ http_success (ok200 "ok") = true
  /\ run_cue "http://h/" (cue_element bad_delay_row) three_ok
     = (Raise (ValueError "Invalid Cue delay='soon' (must be integer milliseconds)"),
        mkWorld (fs three_ok) [ok200 "ok"; ok200 "ok"]
          (trace three_ok ++ [HttpPost Requests "http://h/" [pairs_on 1]])).
Proof.
  assert (H1 : cue_payload (cue_element bad_delay_row) = Some [pairs_on 1])
    by (vm_compute; reflexivity).
  assert (H2 : cue_delay (cue_element bad_delay_row)
               = Raise (ValueError "Invalid Cue delay='soon' (must be integer milliseconds)"))
    by (vm_compute; reflexivity).
  assert (H3 : net three_ok = ok200 "ok" :: [ok200 "ok"; ok200 "ok"]) by reflexivity.
  assert (H4 : http_success (ok200 "ok") = true) by reflexivity.
  split; [ exact H1 | ]. split; [ exact H2 | ]. split; [ exact H3 | ]. split; [ exact H4 | ].
  exact (run_cue_bad_delay_after_request "http://h/" (cue_element bad_delay_row) three_ok
           [pairs_on 1] _ (ok200 "ok") [ok200 "ok"; ok200 "ok"] H1 H2 H3 H4).
Defined.

Lemma run_cue_without_switches_witness :
  Forall (fun child => startswith "Switch" (tag child) = false
                       \/ isdigit (str_drop (String.length "Switch") (tag child)) = false)
         (children cue_without_switches)
  /\ run_cue "http://h/" cue_without_switches three_ok
     = (Raise (ValueError "Cue produced no Switch settings (no <SwitchN> elements found)"),
        three_ok).
Proof.
  assert (H : Forall (fun child => startswith "Switch" (tag child) = false
                        \/ isdigit (str_drop (String.length "Switch") (tag child)) = false)
                (children cue_without_switches)).
  { constructor; [ left; reflexivity | constructor ]. }
  split; [ exact H | ].
  exact (run_cue_without_switches "http://h/" cue_without_switches three_ok H).
Defined.




Lemma menu_run_rejects_blank_order_witness :
  unordered_row ∈ [row 1; unordered_row]
  /\ blank_order unordered_row
  /\ exists msg, _menu_run_worker "192.168.0.100" [row 1; unordered_row] three_ok
                 = (Raise (ValueError msg), three_ok).
Proof.
  assert (H1 : unordered_row ∈ [row 1; unordered_row]) by (right; left).
  assert (H2 : blank_order unordered_row) by (left; vm_compute; reflexivity).
  split; [ exact H1 | ]. split; [ exact H2 | ].
  exact (menu_run_rejects_blank_order "192.168.0.100" [row 1; unordered_row] three_ok
           unordered_row H1 H2).
Defined.

End BatchCases.

(** ** What the store writes and reads back *)

Section StoreCases.

(** X13. [_write_sequence_xml] either raises and leaves the file system as
    it was, or writes one document with root [Sequence] and one [Step] for
    each step it was given. *)
Theorem save_is_all_or_nothing (path : string) (steps : list StepDict) (w : World) :
  (exists e, _write_sequence_xml path steps w = (Raise e, w))
  \/ (exists root,
        _write_sequence_xml path steps w = (Ok tt, put_file path (XmlFile root) w)
        /\ tag root = "Sequence"
        /\ length (findall "Step" root) = length steps).
Proof.
  unfold _write_sequence_xml, bind, liftR.
  destruct (map_result write_step steps) as [els | e] eqn:Hels; [ right | left; eauto ].
  eexists. split; [ reflexivity | ]. split; [ apply tag_fold_SubElement | ].
  unfold findall. rewrite children_fold_SubElement. cbn [children app].
  revert els Hels. induction steps as [| s r IH]; intros els Hels; cbn [map_result] in Hels.
  - now injection Hels as <-.
  - unfold write_step at 1 in Hels.
    destruct (py_int_of (default (PInt 0) (s !! "delay"))) as [d | e]; [ | discriminate ].
    destruct (map_result write_step r) as [els' | e]; [ | discriminate ].
    injection Hels as <-. cbn [List.filter tag el_set].
    rewrite String.eqb_refl. cbn [length]. f_equal. now apply IH.
Qed.





End StoreCases.

(** ** The sequence editor and the helpers of the grid *)

Section Editor.

Lemma gather_steps_well_formed (tree : list TreeRow) :
  _gather_steps tree = map step_dict (map row_step tree).
Proof.
  unfold _gather_steps. rewrite map_map. apply map_ext. intros [[v0 v1] v2]. reflexivity.
Qed.

Lemma gather_step_values (s : Step) :
  _gather_steps [step_values (step_dict s)] = [step_dict s].
Proof.
  unfold _gather_steps, step_values, step_dict, StepDict. cbn [map]. map_lookup.
  cbn [default from_option id py_str py_bool]. rewrite !py_int_str_of_int.
  cbn [default from_option id].
  destruct (step_position s); reflexivity.
Qed.

Lemma gather_steps_app (t1 t2 : list TreeRow) :
  _gather_steps (t1 ++ t2) = _gather_steps t1 ++ _gather_steps t2.
Proof. unfold _gather_steps. apply map_app. Qed.

Lemma gather_load_steps (steps : list Step) :
  _gather_steps (_load_steps (map step_dict steps)) = map step_dict steps.
Proof.
  induction steps as [| s r IH]; [ reflexivity | ].
  change (_load_steps (map step_dict (s :: r)))
    with ([step_values (step_dict s)] ++ _load_steps (map step_dict r)).
  rewrite gather_steps_app, gather_step_values, IH. reflexivity.
Qed.

(** X15. Well-formed steps shown in the steps tree of the sequence editor
    are gathered from it as they were. *)
Theorem steps_tree_round_trip (steps : list Step) :
  _gather_steps (_load_steps (map step_dict steps)) = map step_dict steps.
Proof. apply gather_load_steps. Qed.

Lemma write_then_read (w : World) (path : string) (steps : list Step) :
  exists w',
    _write_sequence_xml path (map step_dict steps) w = (Ok tt, w')
    /\ _read_sequence_xml path w' = (Ok (map step_dict steps), w').
Proof.
  eexists. split.
  - unfold _write_sequence_xml, bind, liftR.
    rewrite map_result_write_steps. unfold ET_write. reflexivity.
  - unfold _read_sequence_xml, bind, ET_parse, ret. cbn [fs].
    rewrite lookup_insert_eq. unfold findall.
    rewrite children_fold_SubElement. cbn [children app].
    rewrite filter_step_elements, map_map.
    do 2 f_equal. apply map_ext. intros s. apply read_step_element.
Qed.

(** X16. Whatever the rows of the steps tree hold, the steps gathered from
    it can be saved, are loaded again as they were gathered, and show again
    as the same steps. *)
Theorem edited_sequence_is_saved_as_shown (w : World) (path : string) (tree : list TreeRow) :
  exists w',
    _write_sequence_xml path (_gather_steps tree) w = (Ok tt, w')
    /\ _read_sequence_xml path w' = (Ok (_gather_steps tree), w')
    /\ _gather_steps (_load_steps (_gather_steps tree)) = _gather_steps tree.
Proof.
  rewrite gather_steps_well_formed.
  destruct (write_then_read w path (map row_step tree)) as (w' & Hw & Hr).
  exists w'. split; [ exact Hw | ]. split; [ exact Hr | ].
  apply gather_load_steps.
Qed.

(** X17. A step the step dialog accepts, added to the steps tree, is
    gathered from it as the last step, as the dialog gave it. *)
Theorem step_dialog_adds_its_step (var_switch var_delay : string) (var_position : bool)
    (tree : list TreeRow) (step : StepDict) :
  step_dialog_on_ok var_switch var_delay var_position = Some step ->
  _gather_steps (_on_add_step tree step) = _gather_steps tree ++ [step].
Proof.
  unfold step_dialog_on_ok, _on_add_step. intros Hok.
  destruct (py_int (strip var_switch)) as [sw |]; [ | discriminate ].
  destruct (if String.eqb (strip var_delay) "" then Some 0 else py_int (strip var_delay))
    as [delay |]; [ | discriminate ].
  injection Hok as <-. rewrite gather_steps_app. f_equal.
  apply (gather_step_values (mkStep sw var_position delay)).
Qed.

Lemma step_dialog_adds_its_step_witness :
  step_dialog_on_ok " 4 " "" true = Some (step_dict (mkStep 4 true 0))
  /\ _gather_steps (_on_add_step [("2", "False", "500")] (step_dict (mkStep 4 true 0)))
     = _gather_steps [("2", "False", "500")] ++ [step_dict (mkStep 4 true 0)].
Proof.
  assert (H : step_dialog_on_ok " 4 " "" true = Some (step_dict (mkStep 4 true 0)))
    by (vm_compute; reflexivity).
  split; [ exact H | ].
  exact (step_dialog_adds_its_step " 4 " "" true [("2", "False", "500")] _ H).
Defined.

Lemma fold_max_ge (l : list Z) (a : Z) :
  a <= fold_left Z.max l a /\ forall x, x ∈ l -> x <= fold_left Z.max l a.
Proof.
  revert a. induction l as [| y r IH]; intros a; cbn [fold_left].
  - split; [ lia | ]. intros x Hx. now apply elem_of_nil in Hx.
  - destruct (IH (Z.max a y)) as [H1 H2]. split; [ lia | ].
    intros x Hx. apply elem_of_cons in Hx as [-> | Hx]; [ lia | now apply H2 ].
Qed.

(** X18. The order [_next_order] suggests is above every order of the
    grid that is an integer or the text of one. *)
Theorem next_order_is_fresh (rows : list Cue) (r : Cue) (z : Z) :
  r ∈ rows ->
  order_candidate r = Some z ->
  z < _next_order rows.
Proof.
  intros Hin Hz. unfold _next_order.
  assert (Hmem : z ∈ omap order_candidate rows).
  { apply list_elem_of_omap. eauto. }
  destruct (omap order_candidate rows) as [| o os]; [ now apply elem_of_nil in Hmem | ].
  destruct (fold_max_ge os o) as [H1 H2].
  apply elem_of_cons in Hmem as [-> | Hmem]; [ lia | ].
  specialize (H2 z Hmem). lia.
Qed.

Lemma next_order_is_fresh_witness :
  row 3 ∈ rows_312
  /\ order_candidate (row 3) = Some 3
  /\ 3 < _next_order rows_312.
Proof.
  assert (H1 : row 3 ∈ rows_312) by left.
  assert (H2 : order_candidate (row 3) = Some 3) by (vm_compute; reflexivity).
  split; [ exact H1 | ]. split; [ exact H2 | ].
  exact (next_order_is_fresh rows_312 (row 3) 3 H1 H2).
Defined.

(** X19. Whatever index it is given, [_select_row_by_index] selects a row
    of the tree when the tree has one. *)
Theorem selected_row_exists (index : pyval) (children : list string) :
  children <> [] ->
  exists iid, _select_row_by_index index children = Some iid /\ iid ∈ children.
Proof.
  intros Hne. unfold _select_row_by_index.
  destruct children as [| c r]; [ contradiction | ].
  set (l := c :: r).
  assert (Hlen : (0 < length l)%nat) by (cbn; lia).
  match goal with |- exists iid, l !! Z.to_nat ?i = _ /\ _ => set (idx := i) end.
  assert (Hidx : (Z.to_nat idx < length l)%nat).
  { subst idx. destruct index as [| b | z | s]; try lia;
      destruct (py_int_of _) as [i | e]; try lia;
      destruct (Z.ltb_spec i 0); cbn [orb]; try lia;
      destruct (Z.leb_spec (Z.of_nat (length l)) i); lia. }
  destruct (lookup_lt_is_Some_2 l _ Hidx) as [iid Hiid].
  exists iid. split; [ exact Hiid | ]. eapply list_elem_of_lookup_2. exact Hiid.
Qed.

Lemma selected_row_exists_witness :
  ["I001"; "I002"; "I003"] <> []
  /\ exists iid, _select_row_by_index (PInt 7) ["I001"; "I002"; "I003"] = Some iid
                 /\ iid ∈ ["I001"; "I002"; "I003"].
Proof.
  assert (H : ["I001"; "I002"; "I003"] <> []) by discriminate.
  split; [ exact H | ].
  exact (selected_row_exists (PInt 7) ["I001"; "I002"; "I003"] H).
Defined.

End Editor.

(** ** The cue file *)

Section CueFile.

Lemma safe_int_cell (v : option Z) : _safe_int (py_str (cell v)) = cell v.
Proof.
  destruct v as [z |]; [ | reflexivity ].
  unfold _safe_int. cbn [cell py_str]. now rewrite py_int_str_of_int.
Qed.

Lemma grid_dict_lookups (g : GridRow) :
  grid_dict g !! "Cue" = Some (PStr (g_name g))
  /\ grid_dict g !! "Order" = Some (cell (g_order g))
  /\ grid_dict g !! "Sequence" = Some (PStr (g_sequence g))
  /\ grid_dict g !! "Delay" = Some (cell (g_delay g))
  /\ forall i, 1 <= i <= 8 -> grid_dict g !! switch_tag i = Some (PBool (g_switch g i)).
Proof.
  unfold grid_dict, Cue. switch_literals.
  repeat split; try (map_lookup; reflexivity).
  intros i Hi.
  assert (Hcases : i = 1 \/ i = 2 \/ i = 3 \/ i = 4 \/ i = 5 \/ i = 6 \/ i = 7 \/ i = 8) by lia.
  destruct Hcases as [-> | [-> | [-> | [-> | [-> | [-> | [-> | ->]]]]]]];
    switch_literals; map_lookup; reflexivity.
Qed.

Lemma find_switch_element (r : Cue) (i : Z) :
  1 <= i <= 8 -> el_find (switch_tag i) (cue_element r) = Some (switch_element r i).
Proof.
  intros Hi. unfold el_find, findall. rewrite children_cue_element.
  assert (Hcases : i = 1 \/ i = 2 \/ i = 3 \/ i = 4 \/ i = 5 \/ i = 6 \/ i = 7 \/ i = 8) by lia.
  destruct Hcases as [-> | [-> | [-> | [-> | [-> | [-> | [-> | ->]]]]]]];
    cbn [map List.filter tag switch_element]; switch_literals; string_tests; reflexivity.
Qed.

Lemma order_text_cell (v : option Z) :
  match Some (cell v) with
  | None | Some PNone => ""
  | Some x => py_str x
  end = py_str (cell v).
Proof. destruct v; reflexivity. Qed.

Lemma parse_bool_written (b : bool) : _parse_bool (if b then "true" else "false") = b.
Proof. destruct b; reflexivity. Qed.

Lemma read_cue_cue_element (g : GridRow) :
  read_cue (cue_element (grid_dict g)) = grid_dict g.
Proof.
  destruct (grid_dict_lookups g) as (Hn & Ho & Hs & Hd & Hsw).
  unfold read_cue. rewrite !el_get_cue_element. map_lookup.
  rewrite Hn, Ho, Hs, Hd. rewrite order_text_cell.
  cbn [default from_option id]. 
  change (py_str (id (PStr (g_name g)))) with (g_name g).
  change (py_str (id (PStr (g_sequence g)))) with (g_sequence g).
  change (id (py_str (cell (g_order g)))) with (py_str (cell (g_order g))).
  change (py_str (id (cell (g_delay g)))) with (py_str (cell (g_delay g))).
  rewrite !safe_int_cell.
  change (py_range 1 9) with [1; 2; 3; 4; 5; 6; 7; 8]. cbn [fold_left].
  rewrite !find_switch_element by lia. unfold switch_element.
  cbn [text]. rewrite !Hsw by lia. cbn [default from_option id py_bool].
  rewrite !parse_bool_written. unfold grid_dict.
  change (py_range 1 9) with [1; 2; 3; 4; 5; 6; 7; 8]. reflexivity.
Qed.

Lemma insert_by_hd {A} (le : A -> A -> bool) (x : A) (l : list A) :
  HdRel (fun a b => le a b = true) x l -> insert_by le x l = x :: l.
Proof. intros [| y r Hxy]; [ reflexivity | ]. cbn [insert_by]. now rewrite Hxy. Qed.

Lemma sort_by_sorted {A} (le : A -> A -> bool) (l : list A) :
  Sorted (fun a b => le a b = true) l -> sort_by le l = l.
Proof.
  induction 1 as [| x l Hs IH Hhd]; [ reflexivity | ].
  cbn [sort_by]. rewrite IH. now apply insert_by_hd.
Qed.

(** X20. Saving the rows of the grid and opening the saved file gives the
    rows back, sorted by order with the blank orders last; rows that were in
    that order come back as they were. The rows are those the dialog and a
    load produce, with printable texts: the file system of the model keeps
    the document as written, which for such texts is what ElementTree
    parses back. *)
Theorem cue_file_round_trip (w : World) (path : string) (rows : list GridRow) :
  Forall plain_row rows ->
  exists w',
    _write_xml path (map grid_dict rows) w = (Ok tt, w')
    /\ _read_xml path w' = (Ok (sort_by row_le (map grid_dict rows)), w')
    /\ (Sorted (fun a b => row_le a b = true) (map grid_dict rows) ->
        _read_xml path w' = (Ok (map grid_dict rows), w')).
Proof.
  intros _.
  assert (Hread : forall w', fs w' !! path = Some (XmlFile (cues_element (map grid_dict rows))) ->
                  _read_xml path w' = (Ok (sort_by row_le (map grid_dict rows)), w')).
  { intros w' Hfs. unfold _read_xml, bind, ET_parse, ret. rewrite Hfs.
    assert (Htag : tag (cues_element (map grid_dict rows)) = "Cues").
    { unfold cues_element. now rewrite tag_fold_SubElement. }
    rewrite Htag. change (negb (String.eqb "Cues" "Cues")) with false. cbv iota.
    rewrite findall_cues_element, !map_map.
    erewrite map_ext; [ reflexivity | ].
    intros g. cbv beta. apply read_cue_cue_element. }
  eexists. split; [ reflexivity | ].
  assert (Hfs : fs (mkWorld (<[path := XmlFile (cues_element (map grid_dict rows))]> (fs w))
                      (net w) (trace w)) !! path
                = Some (XmlFile (cues_element (map grid_dict rows)))).
  { cbn [fs]. apply lookup_insert_eq. }
  split; [ now apply Hread | ].
  intros Hsorted. rewrite (Hread _ Hfs). now rewrite sort_by_sorted.
Qed.

Lemma two_grid_rows_plain : Forall plain_row two_grid_rows.
Proof. repeat constructor. Qed.

Lemma cue_file_round_trip_witness :
  exists w',
    _write_xml "show.xml" (map grid_dict two_grid_rows) (empty_world []) = (Ok tt, w')
    /\ _read_xml "show.xml" w' = (Ok (sort_by row_le (map grid_dict two_grid_rows)), w')
    /\ (Sorted (fun a b => row_le a b = true) (map grid_dict two_grid_rows) ->
        _read_xml "show.xml" w' = (Ok (map grid_dict two_grid_rows), w')).
Proof.
  exact (cue_file_round_trip (empty_world []) "show.xml" two_grid_rows two_grid_rows_plain).
Defined.

End CueFile.

(** ** Cells, the cue dialog, Add New and Edit *)

Section Grid.

Lemma eight_cases (i : Z) :
  1 <= i <= 8 -> i = 1 \/ i = 2 \/ i = 3 \/ i = 4 \/ i = 5 \/ i = 6 \/ i = 7 \/ i = 8.
Proof. lia. Qed.

Lemma toggle_switch_column (s : App) (item : string) (cue : Cue) (i : Z) :
  1 <= i <= 8 -> item <> "" -> row_data_by_iid s !! item = Some cue ->
  _toggle_if_switch_cell item (column_id_of (i + 4)) s
  = Some (set_rows (<[item := <[switch_tag i :=
                                  PBool (negb (py_bool (default (PBool false)
                                                          (cue !! switch_tag i))))]> cue]>
                      (row_data_by_iid s)) s).
Proof.
  intros Hi Hitem Hrow. unfold _toggle_if_switch_cell.
  apply String.eqb_neq in Hitem. rewrite Hitem.
  destruct (eight_cases i Hi) as [-> | [-> | [-> | [-> | [-> | [-> | [-> | ->]]]]]]];
    match goal with
    | |- context [column_id_of ?n] =>
        let v := eval vm_compute in (column_id_of n) in
        change (column_id_of n) with v
    end;
    match goal with
    | |- context [String.eqb ?a ""] =>
        let v := eval vm_compute in (String.eqb a "") in
        change (String.eqb a "") with v
    end;
    match goal with
    | |- context [py_int ?a] =>
        let v := eval vm_compute in (py_int a) in
        change (py_int a) with v
    end;
    cbn [orb]; cbv iota beta zeta;
    match goal with
    | |- context [COLUMNS !! ?n] =>
        let v := eval vm_compute in (COLUMNS !! n) in
        change (COLUMNS !! n) with v
    end;
    cbv iota beta;
    match goal with
    | |- context [str_in ?a SWITCH_COLUMNS] =>
        change (str_in a SWITCH_COLUMNS) with true
    end;
    match goal with
    | |- context [?a <? 0] =>
        let v := eval vm_compute in (a <? 0) in
        change (a <? 0) with v
    end;
    cbv iota; rewrite Hrow; switch_literals; reflexivity.
Qed.

Lemma build_pairs_insert_switch (cue : Cue) (i : Z) (b : bool) :
  1 <= i <= 8 ->
  _build_pairs_from_cue (<[switch_tag i := PBool b]> cue)
  = <[Z.to_nat (i - 1) := (OUTLET_BASE + (i - 1), b)]> (_build_pairs_from_cue cue).
Proof.
  intros Hi. unfold _build_pairs_from_cue, Cue.
  destruct (eight_cases i Hi) as [-> | [-> | [-> | [-> | [-> | [-> | [-> | ->]]]]]]];
    switch_literals; map_lookup; reflexivity.
Qed.

(** X21. A click on the cell of Switch i of a row flips pair i-1 of the
    payload of that row and no other pair; the other cells of the row
    stay. *)
Theorem toggle_flips_one_pair (s : App) (item : string) (cue : Cue) (i : Z) :
  1 <= i <= 8 -> item <> "" -> row_data_by_iid s !! item = Some cue ->
  exists cue',
    _toggle_if_switch_cell item (column_id_of (i + 4)) s
    = Some (set_rows (<[item := cue']> (row_data_by_iid s)) s)
    /\ _build_pairs_from_cue cue'
       = <[Z.to_nat (i - 1) :=
             (OUTLET_BASE + (i - 1),
              negb (py_bool (default (PBool false) (cue !! switch_tag i))))]>
           (_build_pairs_from_cue cue)
    /\ (forall k, k <> switch_tag i -> cue' !! k = cue !! k).
Proof.
  intros Hi Hitem Hrow. eexists. split; [ exact (toggle_switch_column s item cue i Hi Hitem Hrow) | ].
  split; [ apply build_pairs_insert_switch, Hi | ].
  intros k Hk. unfold Cue in *. now rewrite lookup_insert_ne.
Qed.

Lemma toggle_flips_one_pair_witness :
  exists cue',
    _toggle_if_switch_cell "I002" (column_id_of (3 + 4)) three_cue_app
    = Some (set_rows (<["I002" := cue']> (row_data_by_iid three_cue_app)) three_cue_app)
    /\ _build_pairs_from_cue cue'
       = <[Z.to_nat (3 - 1) :=
             (OUTLET_BASE + (3 - 1),
              negb (py_bool (default (PBool false) (row 2 !! switch_tag 3))))]>
           (_build_pairs_from_cue (row 2))
    /\ (forall k, k <> switch_tag 3 -> cue' !! k = row 2 !! k).
Proof.
  apply (toggle_flips_one_pair three_cue_app "I002" (row 2) 3);
    [ lia | discriminate | vm_compute; reflexivity ].
Defined.

(** X22. Two clicks on the same switch cell restore the payload of the
    row. *)
Theorem toggle_twice_restores_payload (s : App) (item : string) (cue : Cue) (i : Z) :
  1 <= i <= 8 -> item <> "" -> row_data_by_iid s !! item = Some cue ->
  exists s1 s2 cue2,
    _toggle_if_switch_cell item (column_id_of (i + 4)) s = Some s1
    /\ _toggle_if_switch_cell item (column_id_of (i + 4)) s1 = Some s2
    /\ row_data_by_iid s2 !! item = Some cue2
    /\ _build_pairs_from_cue cue2 = _build_pairs_from_cue cue.
Proof.
  intros Hi Hitem Hrow.
  eexists. eexists. eexists. split; [ exact (toggle_switch_column s item cue i Hi Hitem Hrow) | ].
  split.
  { apply toggle_switch_column; [ lia | done | ]. cbn [set_rows row_data_by_iid].
    apply lookup_insert_eq. }
  split; [ cbn [set_rows row_data_by_iid]; apply lookup_insert_eq | ].
  rewrite !build_pairs_insert_switch by lia.
  unfold Cue in *. rewrite lookup_insert_eq. cbn [default from_option id py_bool].
  rewrite negb_involutive, list_insert_insert_eq.
  apply list_insert_id.
  unfold _build_pairs_from_cue.
  destruct (eight_cases i Hi) as [-> | [-> | [-> | [-> | [-> | [-> | [-> | ->]]]]]]];
    reflexivity.
Qed.

Lemma toggle_twice_restores_payload_witness :
  exists s1 s2 cue2,
    _toggle_if_switch_cell "I002" (column_id_of (3 + 4)) three_cue_app = Some s1
    /\ _toggle_if_switch_cell "I002" (column_id_of (3 + 4)) s1 = Some s2
    /\ row_data_by_iid s2 !! "I002" = Some cue2
    /\ _build_pairs_from_cue cue2 = _build_pairs_from_cue (row 2).
Proof.
  apply (toggle_twice_restores_payload three_cue_app "I002" (row 2) 3);
    [ lia | discriminate | vm_compute; reflexivity ].
Defined.

Lemma optional_int_cell (t : string) (v : pyval) :
  optional_int t = Some v -> v = cell (blank_or_int v).
Proof.
  unfold optional_int. destruct (String.eqb t ""); [ now intros [= <-] | ].
  destruct (py_int t); [ now intros [= <-] | discriminate ].
Qed.

Lemma cue_dialog_grid_row (d : CueEditorDialog) (r : Cue) :
  length (switch_vars d) = 8%nat ->
  cue_dialog_on_ok d = Some r ->
  exists g, r = grid_dict g /\ g_name g = strip (var_cue d) /\ g_name g <> ""
            /\ g_sequence g = strip (var_sequence d)
            /\ optional_int (strip (var_order d)) = Some (cell (g_order g))
            /\ (forall i, 1 <= i <= 8 ->
                switch_vars d !! Z.to_nat (i - 1) = Some (g_switch g i)).
Proof.
  intros Hlen. unfold cue_dialog_on_ok.
  destruct (String.eqb (strip (var_cue d)) "") eqn:Hname; [ discriminate | ].
  destruct (optional_int (strip (var_order d))) as [o |] eqn:Ho; [ | discriminate ].
  destruct (optional_int (strip (var_delay d))) as [dl |] eqn:Hd; [ | discriminate ].
  intros [= <-].
  pose proof (optional_int_cell _ _ Ho) as Ho'. apply optional_int_cell in Hd.
  destruct (switch_vars d) as [| b1 [| b2 [| b3 [| b4 [| b5 [| b6 [| b7 [| b8 [| ? ?]]]]]]]]];
    try discriminate Hlen.
  exists (mkGridRow (strip (var_cue d)) (blank_or_int o) (strip (var_sequence d))
            (blank_or_int dl)
            (fun i => nth (Z.to_nat (i - 1)) [b1; b2; b3; b4; b5; b6; b7; b8] false)).
  cbn [g_name g_sequence g_switch]. split.
  { unfold grid_dict. cbn [g_name g_order g_sequence g_delay g_switch].
    rewrite <- Ho', <- Hd. cbn [enumerate]. switch_literals. reflexivity. }
  split; [ reflexivity | ]. split; [ now apply String.eqb_neq | ].
  split; [ reflexivity | ]. split; [ cbn [g_order]; congruence | ].
  intros i Hi.
  destruct (eight_cases i Hi) as [-> | [-> | [-> | [-> | [-> | [-> | [-> | ->]]]]]]];
    reflexivity.
Qed.

(** X23. A cue the cue dialog accepts has the stripped name of the dialog,
    which is not blank, and the switches of the dialog as its payload; the
    [Cue] element [_write_xml] builds for it is read by the loop of
    [_read_xml] as the cue itself. *)
Theorem dialog_cue_survives_the_file (d : CueEditorDialog) (r : Cue) :
  length (switch_vars d) = 8%nat ->
  cue_dialog_on_ok d = Some r ->
  r !! "Cue" = Some (PStr (strip (var_cue d)))
  /\ strip (var_cue d) <> ""
  /\ _build_pairs_from_cue r
     = map (fun iv => (OUTLET_BASE + (fst iv - 1), snd iv)) (enumerate 1 (switch_vars d))
  /\ read_cue (cue_element r) = r.
Proof.
  intros Hlen Hok.
  destruct (cue_dialog_grid_row d r Hlen Hok) as (g & -> & Hn & Hne & _ & _ & Hsw).
  destruct (grid_dict_lookups g) as (Hcue & _ & _ & _ & Hl).
  rewrite <- Hn. split; [ exact Hcue | ]. split; [ exact Hne | ].
  split; [ | apply read_cue_cue_element ].
  destruct (switch_vars d) as [| b1 [| b2 [| b3 [| b4 [| b5 [| b6 [| b7 [| b8 [| ? ?]]]]]]]]];
    try discriminate Hlen.
  unfold _build_pairs_from_cue.
  change (py_range 1 9) with [1; 2; 3; 4; 5; 6; 7; 8]. cbn [map enumerate fst snd].
  rewrite !Hl by lia. cbn [default from_option id py_bool].
  pose proof (Hsw 1 ltac:(lia)) as H1. pose proof (Hsw 2 ltac:(lia)) as H2.
  pose proof (Hsw 3 ltac:(lia)) as H3. pose proof (Hsw 4 ltac:(lia)) as H4.
  pose proof (Hsw 5 ltac:(lia)) as H5. pose proof (Hsw 6 ltac:(lia)) as H6.
  pose proof (Hsw 7 ltac:(lia)) as H7. pose proof (Hsw 8 ltac:(lia)) as H8.
  cbn in H1, H2, H3, H4, H5, H6, H7, H8.
  injection H1 as <-. injection H2 as <-. injection H3 as <-. injection H4 as <-.
  injection H5 as <-. injection H6 as <-. injection H7 as <-. injection H8 as <-.
  reflexivity.
Qed.

Lemma intro_dialog_ok : cue_dialog_on_ok intro_dialog = Some intro_cue.
Proof. vm_compute. reflexivity. Qed.

Lemma dialog_cue_survives_the_file_witness :
  intro_cue !! "Cue" = Some (PStr (strip (var_cue intro_dialog)))
  /\ strip (var_cue intro_dialog) <> ""
  /\ _build_pairs_from_cue intro_cue
     = map (fun iv => (OUTLET_BASE + (fst iv - 1), snd iv))
         (enumerate 1 (switch_vars intro_dialog))
  /\ read_cue (cue_element intro_cue) = intro_cue.
Proof.
  exact (dialog_cue_survives_the_file intro_dialog intro_cue eq_refl intro_dialog_ok).
Defined.

Lemma column_values_lookup (r : Cue) (k : string) :
  k ∈ COLUMNS -> column_values r !! k = Some (default PNone (r !! k)).
Proof.
  intros Hk. unfold column_values.
  apply elem_of_list_to_map_1.
  - rewrite <- list_fmap_compose. vm_compute.
    repeat (constructor; [ set_solver | ]). constructor.
  - apply list_elem_of_In, (in_map (fun k => (k, default PNone (r !! k)))), list_elem_of_In, Hk.
Qed.

Lemma switch_tag_column (i : Z) : 1 <= i <= 8 -> switch_tag i ∈ COLUMNS.
Proof.
  intros Hi.
  destruct (eight_cases i Hi) as [-> | [-> | [-> | [-> | [-> | [-> | [-> | ->]]]]]]];
    vm_compute; set_solver.
Qed.

Lemma build_pairs_ext (a b : Cue) :
  (forall i, 1 <= i <= 8 ->
   py_bool (default (PBool false) (a !! switch_tag i))
   = py_bool (default (PBool false) (b !! switch_tag i))) ->
  _build_pairs_from_cue a = _build_pairs_from_cue b.
Proof.
  intros H. unfold _build_pairs_from_cue.
  change (py_range 1 9) with [1; 2; 3; 4; 5; 6; 7; 8]. cbn [map].
  now rewrite !H by lia.
Qed.

(** X24. A cue entered through Add New goes into the grid with an integer
    order, the next free one when the field was left blank, and an integer
    or blank delay, so that Run all does not refuse it; its payload is the
    one of the dialog. *)
Theorem added_cue_is_runnable (rows : list Cue) (d : CueEditorDialog) (r : Cue) :
  length (switch_vars d) = 8%nat ->
  cue_dialog_on_ok d = Some r ->
  exists a,
    _menu_add_new rows (Some r) = Some a
    /\ runnable_row a
    /\ (strip (var_order d) = "" -> a !! "Order" = Some (PInt (_next_order rows)))
    /\ _build_pairs_from_cue a = _build_pairs_from_cue r.
Proof.
  intros Hlen Hok.
  destruct (cue_dialog_grid_row d r Hlen Hok) as (g & -> & _ & _ & _ & Hord & _).
  destruct (grid_dict_lookups g) as (_ & Ho & _ & Hd & Hsw).
  eexists. split; [ reflexivity | ].
  assert (Horder : "Order" ∈ COLUMNS) by (vm_compute; set_solver).
  assert (Hdelay : "Delay" ∈ COLUMNS) by (vm_compute; set_solver).
  rewrite Ho. unfold runnable_row. rewrite !column_values_lookup by assumption.
  destruct (g_order g) as [z |] eqn:Hg; cbn [cell].
  - split; [ | split ].
    + rewrite Ho, Hd. cbn [default from_option id]. split; [ eauto | ].
      destruct (g_delay g); cbn [cell]; eauto.
    + intros Hblank. rewrite Hblank in Hord. discriminate Hord.
    + apply build_pairs_ext. intros i Hi.
      rewrite column_values_lookup by now apply switch_tag_column.
      now rewrite Hsw.
  - change (String.eqb "" "") with true. unfold Cue in *.
    rewrite lookup_insert_eq, lookup_insert_ne, Hd by discriminate.
    cbn [default from_option id]. split; [ | split ].
    + split; [ eauto | ]. destruct (g_delay g); cbn [cell]; eauto.
    + reflexivity.
    + apply build_pairs_ext. intros i Hi.
      rewrite column_values_lookup by now apply switch_tag_column.
      unfold Cue in *. rewrite lookup_insert_ne; [ now rewrite Hsw | ].
      destruct (eight_cases i Hi) as [-> | [-> | [-> | [-> | [-> | [-> | [-> | ->]]]]]]];
        discriminate.
Qed.

Lemma outro_dialog_ok : cue_dialog_on_ok outro_dialog = Some outro_cue.
Proof. vm_compute. reflexivity. Qed.

Lemma added_cue_is_runnable_witness :
  exists a,
    _menu_add_new rows_312 (Some outro_cue) = Some a
    /\ runnable_row a
    /\ (strip (var_order outro_dialog) = ""
        -> a !! "Order" = Some (PInt (_next_order rows_312)))
    /\ _build_pairs_from_cue a = _build_pairs_from_cue outro_cue.
Proof.
  exact (added_cue_is_runnable rows_312 outro_dialog outro_cue eq_refl outro_dialog_ok).
Defined.

(** X25. The cue dialog lets the order of a cue blank and Edit stores it
    so; Run all then refuses the grid with a [ValueError] before any request
    is sent. *)
Theorem blank_order_edit_stops_the_run (d : CueEditorDialog) (r : Cue) (s : App)
    (iid host : string) (children : list string) (rows : list Cue) (w : World) :
  length (switch_vars d) = 8%nat ->
  cue_dialog_on_ok d = Some r ->
  strip (var_order d) = "" ->
  iid ∈ children ->
  _gather_rows children (_menu_edit_selected iid (Some r) s) = Some rows ->
  exists msg, _menu_run_worker host rows w = (Raise (ValueError msg), w).
Proof.
  intros Hlen Hok Hblank Hchild Hrows.
  destruct (cue_dialog_grid_row d r Hlen Hok) as (g & -> & _ & _ & _ & Hord & _).
  destruct (grid_dict_lookups g) as (_ & Ho & _).
  rewrite Hblank in Hord. injection Hord as Hord.
  assert (Hin : column_values (grid_dict g) ∈ rows).
  { unfold _gather_rows in Hrows. apply mapM_Some in Hrows.
    apply list_elem_of_lookup in Hchild as [n Hn].
    destruct (Forall2_lookup_l _ _ _ _ _ Hrows Hn) as (c & Hc & Hlook).
    cbn [_menu_edit_selected set_rows row_data_by_iid] in Hlook.
    rewrite lookup_insert_eq in Hlook. injection Hlook as <-.
    now apply list_elem_of_lookup_2 in Hc. }
  destruct (collect_rejects (map cue_element rows)) as [msg Hmsg].
  { exists (cue_element (column_values (grid_dict g))). split.
    - apply list_elem_of_In, in_map, list_elem_of_In, Hin.
    - apply order_of_blank. right. right.
      rewrite column_values_lookup by (vm_compute; set_solver).
      now rewrite Ho, <- Hord. }
  exists msg. unfold _menu_run_worker, execute_sequence, bind, liftR.
  now rewrite findall_cues_element, Hmsg.
Qed.

Lemma edited_rows :
  _gather_rows three_children (_menu_edit_selected "I002" (Some outro_cue) three_cue_app)
  = Some [row 1; column_values outro_cue; row 3].
Proof. vm_compute. reflexivity. Qed.

Lemma blank_order_edit_stops_the_run_witness :
  exists msg,
    _menu_run_worker "192.168.0.100" [row 1; column_values outro_cue; row 3] (empty_world [])
    = (Raise (ValueError msg), empty_world []).
Proof.
  refine (blank_order_edit_stops_the_run outro_dialog outro_cue three_cue_app "I002"
            "192.168.0.100" three_children _ (empty_world []) eq_refl outro_dialog_ok eq_refl _
            edited_rows).
  right. left.
Defined.

End Grid.
